(** * YahooSession: cached, rate-limited OAuth2 session wrapper

    A shallow embedding of [yahoofantasysession.py].  The class
    [YahooSession] is a record, its methods are computations in a state
    and exception monad over the session object and the world around it
    (files, clock, network).  Python exceptions do not roll anything back:
    a computation that raises hands back the state as mutated so far. *)

From Stdlib Require Import ZArith QArith Lqa Ascii String.
From stdpp Require Import gmap strings list fin_maps.

Local Open Scope string_scope.
Set Warnings "-register-all".

(** ** Python values *)

(** The values that travel through keyword arguments and JSON files:
    [None], booleans, integers, floats (finite ones, as rationals),
    strings, lists and string-keyed dictionaries (in insertion order). *)
Inductive pyval : Type :=
| PyNone
| PyBool (b : bool)
| PyInt (z : Z)
| PyFloat (q : Q)
| PyStr (s : string)
| PyList (l : list pyval)
| PyDict (d : list (string * pyval)).

(** Truth value testing, as [if v:] does it. *)
Definition truthy (v : pyval) : bool :=
  match v with
  | PyNone => false
  | PyBool b => b
  | PyInt z => negb (z =? 0)%Z
  | PyFloat q => negb (Qnum q =? 0)%Z
  | PyStr s => negb (String.eqb s EmptyString)
  | PyList l => match l with [] => false | _ => true end
  | PyDict d => match d with [] => false | _ => true end
  end.

(** [v != s] for a string literal [s]: only the very string is equal to it. *)
Definition py_ne_str (v : pyval) (s : string) : bool :=
  match v with
  | PyStr t => negb (String.eqb t s)
  | _ => true
  end.

(** The number a value stands for where Python expects seconds or hours
    ([bool] is a subclass of [int]); [None] for everything else. *)
Definition as_number (v : pyval) : option Q :=
  match v with
  | PyBool b => Some (if b then 1 else 0)%Q
  | PyInt z => Some (inject_Z z)
  | PyFloat q => Some q
  | _ => None
  end.

Definition Qltb (a b : Q) : bool := negb (Qle_bool b a).

(** ** Exceptions and results *)

Inductive exn : Type :=
| Exception (msg : string)
| AssertionError (msg : string)
| KeyError (key : string)
| TypeError
| ValueError
| OverflowError
| OSError
| AttributeError
| FileNotFoundError
| JSONDecodeError
| HTTPError (status : Z)
| ConnectionError
| InsecureTransportError.

Inductive Res (A : Type) : Type :=
| Ok (a : A)
| Raise (e : exn).
Arguments Ok {A} a.
Arguments Raise {A} e.

(** [d[k]] on a value read from JSON. *)
Fixpoint assoc (d : list (string * pyval)) (k : string) : option pyval :=
  match d with
  | [] => None
  | (k', v) :: d' => if String.eqb k' k then Some v else assoc d' k
  end.

Definition getitem (d : pyval) (k : string) : Res pyval :=
  match d with
  | PyDict kvs => match assoc kvs k with Some v => Ok v | None => Raise (KeyError k) end
  | _ => Raise TypeError
  end.

(** ** Files and JSON text

    Parsing and printing JSON is left to Python's [json] module.  The
    text [json.dumps(v, indent=i)] is kept symbolically as [JsonText i v],
    and [json.loads] gives [v] back; [RawText] is text that is not JSON. *)
Inductive file_text : Type :=
| JsonText (indent : nat) (v : pyval)
| RawText (s : string).

Definition json_dumps (v : pyval) (indent : nat) : file_text := JsonText indent v.

Definition json_loads (t : file_text) : Res pyval :=
  match t with
  | JsonText _ v => Ok v
  | RawText _ => Raise JSONDecodeError
  end.

(** ** HTTP responses, as [requests] hands them over *)

Record Response : Type := {
  status_code : Z;
  headers : list (string * string);
  r_url : string;   (* r.url, the URL the response finally came from *)
  text : string;
  from_cache : bool
}.

Definition set_from_cache (b : bool) (r : Response) : Response :=
  {| status_code := status_code r; headers := headers r; r_url := r_url r;
     text := text r; from_cache := b |}.

Definition lower_ascii (c : ascii) : ascii :=
  let n := nat_of_ascii c in
  if (65 <=? n)%nat && (n <=? 90)%nat then ascii_of_nat (n + 32) else c.

Fixpoint lower (s : string) : string :=
  match s with
  | EmptyString => EmptyString
  | String c s' => String (lower_ascii c) (lower s')
  end.

(** [r.headers.get(k)]: the header mapping of [requests] ignores the case
    of header names; a missing header gives [None]. *)
Fixpoint headers_get (hs : list (string * string)) (k : string) : option string :=
  match hs with
  | [] => None
  | (name, v) :: hs' =>
      if String.eqb (lower name) (lower k) then Some v else headers_get hs' k
  end.

(** [r.raise_for_status()] of [requests]: [HTTPError] for the client
    errors 4xx and the server errors 5xx, nothing for any other status. *)
Definition raise_for_status (r : Response) : Res unit :=
  if (400 <=? status_code r)%Z && (status_code r <? 600)%Z
  then Raise (HTTPError (status_code r))
  else Ok tt.

(** ** The world outside the session object *)

Record CacheEntry : Type := {
  stored_at : Q;
  entry : Response
}.

(** What the HTTP layer can reach: the files, the response cache on disk,
    what the resource servers and the token endpoint will answer next, and
    a record of the authenticated requests that went out, each with the
    token it carried and the files as they were at that moment. *)
Record Env : Type := {
  fs : gmap string file_text;
  web_cache : gmap string CacheEntry;
  network : list (Res Response);
  token_endpoint : list (Res pyval);
  sent : list (string * pyval * gmap string file_text)
}.

Definition set_fs (f : gmap string file_text) (e : Env) : Env :=
  {| fs := f; web_cache := web_cache e; network := network e;
     token_endpoint := token_endpoint e; sent := sent e |}.
Definition set_web_cache (c : gmap string CacheEntry) (e : Env) : Env :=
  {| fs := fs e; web_cache := c; network := network e;
     token_endpoint := token_endpoint e; sent := sent e |}.
Definition set_network (n : list (Res Response)) (e : Env) : Env :=
  {| fs := fs e; web_cache := web_cache e; network := n;
     token_endpoint := token_endpoint e; sent := sent e |}.
Definition set_token_endpoint (t : list (Res pyval)) (e : Env) : Env :=
  {| fs := fs e; web_cache := web_cache e; network := network e;
     token_endpoint := t; sent := sent e |}.
Definition set_sent (l : list (string * pyval * gmap string file_text)) (e : Env) : Env :=
  {| fs := fs e; web_cache := web_cache e; network := network e;
     token_endpoint := token_endpoint e; sent := l |}.

(** The world of a running program: the environment, the clock (seconds),
    the arguments of the calls to [time.sleep] made so far, and the timer
    of the operating system: [timer w t d] tells whether, asked at the time
    [t], it takes a suspension of [d] seconds. *)
Record World : Type := {
  env : Env;
  now : Q;
  sleeps : list pyval;
  timer : Q -> Q -> bool
}.

Definition set_env (e : Env) (w : World) : World :=
  {| env := e; now := now w; sleeps := sleeps w; timer := timer w |}.

(** Time going by between two calls. *)
Definition advance (d : Q) (w : World) : World :=
  {| env := env w; now := (now w + d)%Q; sleeps := sleeps w; timer := timer w |}.

(** ** The session objects *)

(** [CacheControlAdapter(cache=FileCache(dir), cache_etags=..,
    heuristic=ExpiresAfter(hours=h))]. *)
Record CacheControlAdapter : Type := {
  cache : pyval;
  cache_etags : bool;
  heuristic : Q
}.

(** The [OAuth2Session] object behind [self.s]: the arguments it was built
    with, the token it currently uses, and the adapters mounted on it. *)
Record OAuth2Session : Type := {
  o_client_id : pyval;
  token : pyval;
  auto_refresh_url : string;
  auto_refresh_kwargs : pyval;
  token_updater : pyval -> Env -> Res unit * Env;
  adapters : list (string * CacheControlAdapter)
}.

Definition set_token (t : pyval) (o : OAuth2Session) : OAuth2Session :=
  {| o_client_id := o_client_id o; token := t;
     auto_refresh_url := auto_refresh_url o;
     auto_refresh_kwargs := auto_refresh_kwargs o;
     token_updater := token_updater o; adapters := adapters o |}.

Definition mount (prefix : string) (a : CacheControlAdapter) (o : OAuth2Session)
  : OAuth2Session :=
  {| o_client_id := o_client_id o; token := token o;
     auto_refresh_url := auto_refresh_url o;
     auto_refresh_kwargs := auto_refresh_kwargs o;
     token_updater := token_updater o; adapters := (prefix, a) :: adapters o |}.

Record YahooSession : Type := {
  request_delay : pyval;
  cache_expire_hours : pyval;
  web_cache_dir : pyval;
  urls : list string;
  cached_urls : gmap string string;
  credentials_file : string;
  auth_file : string;
  auth_base_url : string;
  access_token_url : string;
  client_id : pyval;
  client_secret : pyval;
  callback_url : pyval;
  auth_token_dict : pyval;
  s : option OAuth2Session
}.

Definition set_urls (l : list string) (self : YahooSession) : YahooSession :=
  {| request_delay := request_delay self; cache_expire_hours := cache_expire_hours self;
     web_cache_dir := web_cache_dir self; urls := l; cached_urls := cached_urls self;
     credentials_file := credentials_file self; auth_file := auth_file self;
     auth_base_url := auth_base_url self; access_token_url := access_token_url self;
     client_id := client_id self; client_secret := client_secret self;
     callback_url := callback_url self; auth_token_dict := auth_token_dict self;
     s := s self |}.
Definition set_cached_urls (m : gmap string string) (self : YahooSession) : YahooSession :=
  {| request_delay := request_delay self; cache_expire_hours := cache_expire_hours self;
     web_cache_dir := web_cache_dir self; urls := urls self; cached_urls := m;
     credentials_file := credentials_file self; auth_file := auth_file self;
     auth_base_url := auth_base_url self; access_token_url := access_token_url self;
     client_id := client_id self; client_secret := client_secret self;
     callback_url := callback_url self; auth_token_dict := auth_token_dict self;
     s := s self |}.
Definition set_client_id (v : pyval) (self : YahooSession) : YahooSession :=
  {| request_delay := request_delay self; cache_expire_hours := cache_expire_hours self;
     web_cache_dir := web_cache_dir self; urls := urls self; cached_urls := cached_urls self;
     credentials_file := credentials_file self; auth_file := auth_file self;
     auth_base_url := auth_base_url self; access_token_url := access_token_url self;
     client_id := v; client_secret := client_secret self;
     callback_url := callback_url self; auth_token_dict := auth_token_dict self;
     s := s self |}.
Definition set_client_secret (v : pyval) (self : YahooSession) : YahooSession :=
  {| request_delay := request_delay self; cache_expire_hours := cache_expire_hours self;
     web_cache_dir := web_cache_dir self; urls := urls self; cached_urls := cached_urls self;
     credentials_file := credentials_file self; auth_file := auth_file self;
     auth_base_url := auth_base_url self; access_token_url := access_token_url self;
     client_id := client_id self; client_secret := v;
     callback_url := callback_url self; auth_token_dict := auth_token_dict self;
     s := s self |}.
Definition set_callback_url (v : pyval) (self : YahooSession) : YahooSession :=
  {| request_delay := request_delay self; cache_expire_hours := cache_expire_hours self;
     web_cache_dir := web_cache_dir self; urls := urls self; cached_urls := cached_urls self;
     credentials_file := credentials_file self; auth_file := auth_file self;
     auth_base_url := auth_base_url self; access_token_url := access_token_url self;
     client_id := client_id self; client_secret := client_secret self;
     callback_url := v; auth_token_dict := auth_token_dict self;
     s := s self |}.
Definition set_auth_token_dict (v : pyval) (self : YahooSession) : YahooSession :=
  {| request_delay := request_delay self; cache_expire_hours := cache_expire_hours self;
     web_cache_dir := web_cache_dir self; urls := urls self; cached_urls := cached_urls self;
     credentials_file := credentials_file self; auth_file := auth_file self;
     auth_base_url := auth_base_url self; access_token_url := access_token_url self;
     client_id := client_id self; client_secret := client_secret self;
     callback_url := callback_url self; auth_token_dict := v;
     s := s self |}.
Definition set_s (o : option OAuth2Session) (self : YahooSession) : YahooSession :=
  {| request_delay := request_delay self; cache_expire_hours := cache_expire_hours self;
     web_cache_dir := web_cache_dir self; urls := urls self; cached_urls := cached_urls self;
     credentials_file := credentials_file self; auth_file := auth_file self;
     auth_base_url := auth_base_url self; access_token_url := access_token_url self;
     client_id := client_id self; client_secret := client_secret self;
     callback_url := callback_url self; auth_token_dict := auth_token_dict self;
     s := o |}.

(** ** The monad of methods

    A method runs on the session object and the world, and ends with a
    value or an exception; either way the state is the one reached. *)
Definition St : Type := YahooSession * World.
Definition M (A : Type) : Type := St -> Res A * St.

Definition ret {A} (a : A) : M A := fun st => (Ok a, st).
Definition raise {A} (e : exn) : M A := fun st => (Raise e, st).
Definition bind {A B} (c : M A) (k : A -> M B) : M B :=
  fun st =>
    match c st with
    | (Ok a, st') => k a st'
    | (Raise e, st') => (Raise e, st')
    end.

Declare Scope py_scope.
Delimit Scope py_scope with py.
Notation "'let*' x := c 'in' k" := (bind c (fun x => k))
  (at level 10, x name, c at level 100, k at level 200, only parsing) : py_scope.
Notation "'run' c 'in' k" := (bind c (fun _ => k))
  (at level 10, c at level 100, k at level 200, only parsing) : py_scope.
Local Open Scope py_scope.

Definition get_self : M YahooSession := fun st => (Ok (fst st), st).
Definition modify_self (f : YahooSession -> YahooSession) : M unit :=
  fun st => (Ok tt, (f (fst st), snd st)).
Definition lift_res {A} (r : Res A) : M A := fun st => (r, st).
Definition lift_env {A} (f : Env -> Res A * Env) : M A :=
  fun st => let '(r, e) := f (env (snd st)) in (r, (fst st, set_env e (snd st))).

(** [assert cond, msg] *)
Definition assert_ (cond : bool) (msg : string) : M unit :=
  if cond then ret tt else raise (AssertionError msg).

(** [Path(p).exists()], [Path(p).write_text(t)], [Path(p).read_text()] *)
Definition path_exists (p : string) : M bool :=
  fun st => (Ok (bool_decide (is_Some (fs (env (snd st)) !! p))), st).
Definition write_text (p : string) (t : file_text) : M unit :=
  lift_env (fun e => (Ok tt, set_fs (<[p := t]> (fs e)) e)).
Definition read_text (p : string) : M file_text :=
  fun st =>
    match fs (env (snd st)) !! p with
    | Some t => (Ok t, st)
    | None => (Raise FileNotFoundError, st)
    end.

(** CPython keeps a time span as a signed 64-bit count of nanoseconds:
    [d] seconds are in range when their nanoseconds lie between -2^63 and
    2^63 - 1, which is up to 9223372036 seconds for an integer, either
    side of zero. *)
Definition in_time_range (d : Q) : bool :=
  Qle_bool (-9223372036854775808) (d * 1000000000) &&
  Qle_bool (d * 1000000000) 9223372036854775807.

(** [time.sleep(v)]: suspends for [v] seconds.  The argument is converted
    first: a value that is no number is a [TypeError], a number out of
    range an [OverflowError] ([time.sleep(10**10)], [time.sleep(-10**10)]);
    then a negative number is a [ValueError].  What is left is handed to
    the timer of the operating system, and its refusal is an [OSError]
    (on Linux, a suspension that would end after the last nanosecond its
    clock can count).  The call is entered in [sleeps] whatever comes of
    it; the clock moves only when the program sleeps. *)
Definition time_sleep (v : pyval) : M unit :=
  fun st =>
    let w := snd st in
    let called :=
      {| env := env w; now := now w; sleeps := (sleeps w ++ [v])%list; timer := timer w |} in
    match as_number v with
    | None => (Raise TypeError, (fst st, called))
    | Some d =>
        if in_time_range d then
          if Qle_bool 0 d then
            if timer w (now w) d
            then (Ok tt, (fst st, {| env := env w; now := (now w + d)%Q;
                                     sleeps := (sleeps w ++ [v])%list; timer := timer w |}))
            else (Raise OSError, (fst st, called))
          else (Raise ValueError, (fst st, called))
        else (Raise OverflowError, (fst st, called))
    end.

(** ** YahooSession: construction *)

(** [kwargs.get(k)] *)
Definition kwargs_get (kwargs : gmap string pyval) (k : string) : pyval :=
  match kwargs !! k with
  | Some v => v
  | None => PyNone
  end.

(** The attribute assignments at the head of [__init__], before anything
    is loaded. *)
Definition new_session (kwargs : gmap string pyval) : YahooSession :=
  {| request_delay :=
       if truthy (kwargs_get kwargs "request_delay")
       then kwargs_get kwargs "request_delay" else PyFloat (1 # 10);
     cache_expire_hours :=
       if truthy (kwargs_get kwargs "cache_expire_hours")
       then kwargs_get kwargs "cache_expire_hours" else PyInt 168;
     web_cache_dir :=
       if truthy (kwargs_get kwargs "web_cache_dir")
       then kwargs_get kwargs "web_cache_dir" else PyStr ".yahoo_web_cache";
     urls := [];
     cached_urls := ∅;
     credentials_file := ".yahoo_fantasy_credentials.json";
     auth_file := ".yahoo_fantasy_auth_token.json";
     auth_base_url := "https://api.login.yahoo.com/oauth2/request_auth";
     access_token_url := "https://api.login.yahoo.com/oauth2/get_token";
     client_id := PyStr EmptyString;
     client_secret := PyStr EmptyString;
     callback_url := PyStr "oob";
     auth_token_dict := PyDict [];
     s := None |}.

(** The dictionary written out when there is no credentials file. *)
Definition creds_template : pyval :=
  PyDict [("client_id", PyStr EmptyString);
          ("client_secret", PyStr EmptyString);
          ("callback_url", PyStr "oob")].

Definition creds_required (creds_path : string) : exn :=
  Exception ("Credentials file is required, " ++ creds_path ++
    " has been created, please modify it with your application credentials from https://developer.yahoo.com/apps/").

Definition _load_credentials : M unit :=
  let* self := get_self in
  let creds_path := credentials_file self in
  let* there := path_exists creds_path in
  if negb there then
    run write_text creds_path (json_dumps creds_template 1) in
    raise (creds_required creds_path)
  else
    let* txt := read_text creds_path in
    let* creds_dict := lift_res (json_loads txt) in
    let* cid := lift_res (getitem creds_dict "client_id") in
    run modify_self (set_client_id cid) in
    run assert_ (py_ne_str cid EmptyString) "Credentials file needs to be updated" in
    let* secret := lift_res (getitem creds_dict "client_secret") in
    run modify_self (set_client_secret secret) in
    run assert_ (py_ne_str secret EmptyString) "Credentials file needs to be updated" in
    let* cb := lift_res (getitem creds_dict "callback_url") in
    modify_self (set_callback_url cb).

(** The interactive exchange: the operator follows the authorization link
    and types the code in, the token endpoint answers.  Both are outside
    the program; the answer is the next one [token_endpoint] holds. *)
Definition _get_new_auth_token : M pyval :=
  fun st =>
    match token_endpoint (env (snd st)) with
    | [] => (Raise ConnectionError, st)
    | answer :: rest =>
        (answer, (fst st, set_env (set_token_endpoint rest (env (snd st))) (snd st)))
    end.

Definition _load_authorization : M unit :=
  let* self := get_self in
  let auth_path := auth_file self in
  let* there := path_exists auth_path in
  run (if negb there then
         let* token_dict := _get_new_auth_token in
         write_text auth_path (json_dumps token_dict 1)
       else ret tt) in
  let* txt := read_text auth_path in
  let* tok := lift_res (json_loads txt) in
  modify_self (set_auth_token_dict tok).

(** The callback handed to the HTTP layer.  It runs there, on the
    environment; of the session object it reads [auth_file] only. *)
Definition _auth_file_saver (self : YahooSession) (token_dict : pyval) (e : Env)
  : Res unit * Env :=
  let auth_path := auth_file self in
  (Ok tt, set_fs (<[auth_path := json_dumps token_dict 1]> (fs e)) e).

(** The hours a [timedelta] holds: its days go from -999999999 to
    999999999, the last of them not included in full. *)
Definition timedelta_hours_ok (h : Q) : bool :=
  Qle_bool (-999999999 * 24) h && Qltb h (1000000000 * 24).

(** [ExpiresAfter(hours=h)] builds [timedelta(hours=h)], which takes
    numbers only ([TypeError] otherwise), and those within its range
    ([OverflowError] otherwise, as for [timedelta(hours=10**11)]). *)
Definition _load_session : M unit :=
  let* self := get_self in
  let token_updater_args :=
    PyDict [("client_id", client_id self); ("client_secret", client_secret self)] in
  let o := {| o_client_id := client_id self;
              token := auth_token_dict self;
              auto_refresh_url := access_token_url self;
              auto_refresh_kwargs := token_updater_args;
              token_updater := _auth_file_saver self;
              adapters := [] |} in
  run modify_self (set_s (Some o)) in
  match as_number (cache_expire_hours self) with
  | None => raise TypeError
  | Some h =>
      if timedelta_hours_ok h then
        modify_self (set_s (Some (mount "https://"
          {| cache := web_cache_dir self; cache_etags := false; heuristic := h |} o)))
      else raise OverflowError
  end.

Definition __init__ (kwargs : gmap string pyval) (w : World) : Res YahooSession * World :=
  match (run _load_credentials in
         run _load_authorization in
         run modify_self (set_s None) in
         _load_session) (new_session kwargs, w) with
  | (Ok _, (self, w')) => (Ok self, w')
  | (Raise e, (_, w')) => (Raise e, w')
  end.

(** What [get] returns: the response object or its text. *)
Inductive GetValue : Type :=
| RObj (r : Response)
| RText (t : string).

Definition body (v : GetValue) : string :=
  match v with
  | RObj r => text r
  | RText t => t
  end.

(** ** YahooSession.get

    [self.s.get] belongs to the libraries under the session; [get] is
    defined over any such transport [s_get], which sees the [OAuth2Session]
    object, the clock and the environment, and over the cache's file name
    encoding [FileCache.encode]. *)
Section Get.

Variable encode : string -> string.
Variable s_get : OAuth2Session -> string -> Q -> Env -> Res Response * OAuth2Session * Env.

(** [self.s.get(url)] *)
Definition session_request (url : string) : M Response :=
  fun st =>
    let '(self, w) := st in
    match s self with
    | None => (Raise AttributeError, st)
    | Some o =>
        let '(res, o', e') := s_get o url (now w) (env w) in
        (res, (set_s (Some o') self, set_env e' w))
    end.

Definition get (url : string) (return_object : bool) : M GetValue :=
  let* r := session_request url in
  run assert_ (bool_decide (headers_get (headers r) "etag" = None)) EmptyString in
  let cached_url := encode url in
  let* self := get_self in
  run (if truthy (request_delay self) && negb (from_cache r)
       then time_sleep (request_delay self) else ret tt) in
  run (if negb (from_cache r)
       then modify_self (fun self =>
              set_cached_urls (<[cached_url := r_url r]> (cached_urls self)) self)
       else ret tt) in
  run modify_self (fun self => set_urls (urls self ++ [r_url r])%list self) in
  run lift_res (raise_for_status r) in
  if return_object then ret (RObj r) else ret (RText (text r)).

(** Whether the call [get url] made in state [st] gets a response that
    passes the ETag check and did not come from the cache: 1 if so. *)
Definition fetched (url : string) (st : St) : nat :=
  match session_request url st with
  | (Ok r, _) =>
      if bool_decide (headers_get (headers r) "etag" = None) && negb (from_cache r)
      then 1%nat else 0%nat
  | (Raise _, _) => 0%nat
  end.

(** A caller at work: [calls st n st'] when some sequence of calls to
    [get], whatever each ends with and with any time going by in between,
    leads from [st] to [st'], [n] of the calls being [fetched]. *)
Inductive calls : St -> nat -> St -> Prop :=
| calls_none st : calls st 0 st
| calls_wait st n self w d :
    calls st n (self, w) -> (0 <= d)%Q -> calls st n (self, advance d w)
| calls_get st n st1 url return_object res st2 :
    calls st n st1 -> get url return_object st1 = (res, st2) ->
    calls st (n + fetched url st1) st2.

End Get.

(** ** The HTTP layer under [self.s]

    [requests_oauthlib] and [cachecontrol] are libraries outside this
    program; what they do is taken from their description: a disk cache in
    front of the network, and a token refreshed when it has expired. *)
Section HttpLayer.

Variable encode : string -> string.

(** The adapter mounted for the URL: the first whose prefix the URL
    starts with, case put aside. *)
Fixpoint get_adapter (ads : list (string * CacheControlAdapter)) (url : string)
  : option CacheControlAdapter :=
  match ads with
  | [] => None
  | (p, a) :: ads' =>
      if String.prefix (lower p) (lower url) then Some a else get_adapter ads' url
  end.

(** Modelled from the spec: the expiry test of the OAuth2 library
    (absent from the sources), "detected by comparing an embedded expiry
    timestamp to current time"; [_auth_file_saver] notes the same test,
    [token_dict['expires_at'] < now]. *)
Definition token_expired (tok : pyval) (t : Q) : bool :=
  match getitem tok "expires_at" with
  | Ok v => match as_number v with Some at_ => Qltb at_ t | None => false end
  | Raise _ => false
  end.

(** Modelled from the spec: the silent token refresh of the OAuth2
    library (absent from the sources).  An expired token is exchanged at
    the token endpoint, and the [persist] callback is "invoked by the HTTP
    layer whenever it silently refreshes an expired token", before the new
    token is handed on for use. *)
Definition refresh_token (o : OAuth2Session) (t : Q) (e : Env)
  : Res pyval * OAuth2Session * Env :=
  if token_expired (token o) t then
    match token_endpoint e with
    | [] => (Raise ConnectionError, o, e)
    | Raise ex :: rest => (Raise ex, o, set_token_endpoint rest e)
    | Ok tok :: rest =>
        let '(saved, e') := token_updater o tok (set_token_endpoint rest e) in
        match saved with
        | Ok _ => (Ok tok, set_token tok o, e')
        | Raise ex => (Raise ex, set_token tok o, e')
        end
    end
  else (Ok (token o), o, e).

(** A cache entry is fresh while its age is below the configured hours. *)
Definition fresh (a : CacheControlAdapter) (t : Q) (c : CacheEntry) : bool :=
  Qltb (t - stored_at c) (heuristic a * 3600).

(** Modelled from the spec: the authenticated network GET of the HTTP
    layer (absent from the sources): it "performs an authenticated network
    GET (auto-refreshing the token transparently per 4.2), stores the
    response in the cache, and returns it".  The request carries the token
    in use; [sent] keeps it with the files of that moment. *)
Definition fetch (o : OAuth2Session) (url : string) (t : Q) (e : Env)
  : Res Response * OAuth2Session * Env :=
  let '(tok, o1, e1) := refresh_token o t e in
  match tok with
  | Raise ex => (Raise ex, o1, e1)
  | Ok tk =>
      match network e1 with
      | [] => (Raise ConnectionError, o1, e1)
      | answer :: rest =>
          let e2 := set_sent (sent e1 ++ [(url, tk, fs e1)])%list (set_network rest e1) in
          match answer with
          | Raise ex => (Raise ex, o1, e2)
          | Ok r =>
              let r' := set_from_cache false r in
              (Ok r', o1,
               set_web_cache (<[encode url := {| stored_at := t; entry := r' |}]> (web_cache e2)) e2)
          end
      end
  end.

(** Modelled from the spec: [self.s.get], the caching HTTP client of the
    libraries (absent from the sources).  It "consults a disk cache keyed
    by a deterministic encoding of the URL.  If a fresh entry exists (age <
    configured expiry), returns it without a network call.  Otherwise" it
    goes to the network as [fetch] does.  A URL no adapter is mounted for
    is not served. *)
Definition cached_get (o : OAuth2Session) (url : string) (t : Q) (e : Env)
  : Res Response * OAuth2Session * Env :=
  match get_adapter (adapters o) url with
  | None => (Raise InsecureTransportError, o, e)
  | Some a =>
      match web_cache e !! encode url with
      | Some c =>
          if fresh a t c then (Ok (set_from_cache true (entry c)), o, e)
          else fetch o url t e
      | None => fetch o url t e
      end
  end.

End HttpLayer.

(** Worlds to run the program in. *)
Definition no_env : Env :=
  {| fs := ∅; web_cache := ∅; network := []; token_endpoint := []; sent := [] |}.
(** A timer that counts the nanoseconds from the zero of the clock in 63
    bits, as the one of Linux does from the start of the machine: it
    refuses a suspension that would end beyond them. *)
Definition timer_64 (t d : Q) : bool :=
  Qltb ((t + d) * 1000000000) 9223372036854775808.

Definition world_of (e : Env) : World :=
  {| env := e; now := 0; sleeps := []; timer := timer_64 |}.

(** A filled-in credentials file, a token, and an environment that holds
    both files. *)
Definition creds_filled : pyval :=
  PyDict [("client_id", PyStr "my-id"); ("client_secret", PyStr "my-secret");
          ("callback_url", PyStr "oob")].
Definition token_0 : pyval :=
  PyDict [("access_token", PyStr "t0"); ("refresh_token", PyStr "r0");
          ("expires_at", PyInt 3600)].
Definition env_ready : Env :=
  set_fs (<[".yahoo_fantasy_auth_token.json" := json_dumps token_0 1]>
            (<[".yahoo_fantasy_credentials.json" := json_dumps creds_filled 1]> ∅)) no_env.

(** A string value that is not empty. *)
Definition nonempty_str (v : pyval) : bool :=
  match v with
  | PyStr t => negb (String.eqb t EmptyString)
  | _ => false
  end.


(** A credentials file whose [client_id] is JSON [null]. *)
Definition creds_null : pyval :=
  PyDict [("client_id", PyNone); ("client_secret", PyStr "my-secret");
          ("callback_url", PyStr "oob")].
Definition env_null : Env :=
  set_fs (<[".yahoo_fantasy_auth_token.json" := json_dumps token_0 1]>
            (<[".yahoo_fantasy_credentials.json" := json_dumps creds_null 1]> ∅)) no_env.

(** Falsy values for all three construction options. *)
Definition kwargs_falsy : gmap string pyval :=
  <["request_delay" := PyInt 0]>
    (<["cache_expire_hours" := PyInt 0]> (<["web_cache_dir" := PyStr EmptyString]> ∅)).

(** A delay that does not fail the sleep in the world [w]: a falsy value,
    which never reaches [time.sleep], or a number in range and not below
    zero that the timer takes at the time. *)
Definition delay_ok (v : pyval) (w : World) : bool :=
  negb (truthy v) ||
  match as_number v with
  | Some d => in_time_range d && Qle_bool 0 d && timer w (now w) d
  | None => false
  end.

(** The state a call of [get] that got the response [r] leaves behind when
    its sleep, if any, went well. *)
Definition after_get (encode : string -> string) (url : string) (r : Response)
    (st : St) : St :=
  let '(self, w) := st in
  let sleeping := truthy (request_delay self) && negb (from_cache r) in
  let d := match as_number (request_delay self) with Some d => d | None => 0%Q end in
  (set_urls (urls self ++ [r_url r])%list
     (if from_cache r then self
      else set_cached_urls (<[encode url := r_url r]> (cached_urls self)) self),
   if sleeping
   then {| env := env w; now := (now w + d)%Q;
           sleeps := (sleeps w ++ [request_delay self])%list; timer := timer w |}
   else w).

(** A transport that answers every request with [r]. *)
Definition answer_with (r : Response)
  : OAuth2Session -> string -> Q -> Env -> Res Response * OAuth2Session * Env :=
  fun o _ _ e => (Ok r, o, e).

(** A session constructed with no options over [env_ready], and the world
    it is in. *)
Definition session_1 : YahooSession :=
  match __init__ ∅ (world_of env_ready) with
  | (Ok self, _) => self
  | (Raise _, _) => new_session ∅
  end.
Definition world_1 : World := snd (__init__ ∅ (world_of env_ready)).

Definition url_nfl : string := "https://fantasysports.yahooapis.com/fantasy/v2/game/nfl".

(** Responses fresh from the network: a plain 200, one with an ETag
    header, a 304 and a 404. *)
Definition response_200 : Response :=
  {| status_code := 200; headers := [("Content-Type", "application/xml")];
     r_url := url_nfl; text := "<game_id>449</game_id>"; from_cache := false |}.
Definition response_etag : Response :=
  {| status_code := 200; headers := [("Content-Type", "application/xml"); ("ETag", "abc")];
     r_url := url_nfl; text := "<game_id>449</game_id>"; from_cache := false |}.
Definition response_304 : Response :=
  {| status_code := 304; headers := []; r_url := url_nfl; text := EmptyString;
     from_cache := false |}.
Definition response_404 : Response :=
  {| status_code := 404; headers := []; r_url := url_nfl; text := "Not Found";
     from_cache := false |}.

(** An encoding to run with; [FileCache.encode] itself is a SHA-224 digest. *)
Definition plain (u : string) : string := u.

(** The session as deployed: [get] over the HTTP layer above. *)
Definition session_get (encode : string -> string) : string -> bool -> M GetValue :=
  get encode (cached_get encode).

(** A session as [_load_session] leaves it: the caching adapter mounted on
    https with the configured hours [h], and the token file saver as the
    refresh callback. *)
Definition wired (self : YahooSession) (h : Q) : Prop :=
  exists o,
    s self = Some o /\
    as_number (cache_expire_hours self) = Some h /\
    adapters o =
      [("https://", {| cache := web_cache_dir self; cache_etags := false; heuristic := h |})] /\
    forall tok e,
      token_updater o tok e
      = (Ok tt, set_fs (<[auth_file self := json_dumps tok 1]> (fs e)) e).

(** The token file holds the token the session uses. *)
Definition token_on_disk (self : YahooSession) (w : World) : Prop :=
  exists o t,
    s self = Some o /\
    fs (env w) !! auth_file self = Some t /\ json_loads t = Ok (token o).

(** A request that went out with the token the token file held then. *)
Definition sent_saved_token (path : string)
    (x : string * pyval * gmap string file_text) : Prop :=
  exists t, snd x !! path = Some t /\ json_loads t = Ok (snd (fst x)).

(** What a caller does between two calls of [get] for [url]: calls for
    URLs with another cache key, whatever they end with, and waiting. *)
Inductive other_calls (encode : string -> string) (url : string) : St -> St -> Prop :=
| other_none st : other_calls encode url st st
| other_wait st self w d :
    other_calls encode url st (self, w) -> (0 <= d)%Q ->
    other_calls encode url st (self, advance d w)
| other_get st st1 u return_object res st2 :
    other_calls encode url st st1 ->
    encode u <> encode url ->
    session_get encode u return_object st1 = (res, st2) ->
    other_calls encode url st st2.

(** An environment with a server behind it: one resource answer and one
    answer of the token endpoint wait; the session constructed over it. *)
Definition token_1 : pyval :=
  PyDict [("access_token", PyStr "t1"); ("refresh_token", PyStr "r0");
          ("expires_at", PyInt 10800)].
Definition env_live : Env :=
  set_token_endpoint [Ok token_1] (set_network [Ok response_200] env_ready).
Definition session_2 : YahooSession :=
  match __init__ ∅ (world_of env_live) with
  | (Ok self, _) => self
  | (Raise _, _) => new_session ∅
  end.
Definition world_2 : World := snd (__init__ ∅ (world_of env_live)).

(** A credentials file without [callback_url], and the environment that
    holds it. *)
Definition creds_no_callback : pyval :=
  PyDict [("client_id", PyStr "my-id"); ("client_secret", PyStr "my-secret")].
Definition env_no_callback : Env :=
  set_fs (<[".yahoo_fantasy_credentials.json" := json_dumps creds_no_callback 1]> ∅) no_env.

(** An environment with filled-in credentials and no token file yet; the
    token endpoint will answer with [token_0]. *)
Definition env_first_run : Env :=
  set_token_endpoint [Ok token_0]
    (set_fs (<[".yahoo_fantasy_credentials.json" := json_dumps creds_filled 1]> ∅) no_env).

(** Every URL kept in [cached_urls] is in the request log [urls]. *)
Definition logged (self : YahooSession) : Prop :=
  forall k v, cached_urls self !! k = Some v -> v ∈ urls self.

(** Options the constructor takes as they are: hours that are no number,
    a delay below zero, a delay of ten thousand million seconds. *)
Definition kwargs_bad_hours : gmap string pyval := {[ "cache_expire_hours" := PyStr "24" ]}.
Definition kwargs_neg_delay : gmap string pyval := {[ "request_delay" := PyInt (-1) ]}.
Definition session_neg : YahooSession :=
  match __init__ kwargs_neg_delay (world_of env_ready) with
  | (Ok self, _) => self
  | (Raise _, _) => new_session ∅
  end.
Definition kwargs_long_delay : gmap string pyval :=
  {[ "request_delay" := PyInt 10000000000 ]}.
Definition session_long : YahooSession :=
  match __init__ kwargs_long_delay (world_of env_ready) with
  | (Ok self, _) => self
  | (Raise _, _) => new_session ∅
  end.

(** A 200 response whose text does not mention the key the script looks
    for. *)
Definition response_other : Response :=
  {| status_code := 200; headers := [];
     r_url := url_nfl; text := "<error>no such game in this season</error>";
     from_cache := false |}.

(** ** The script under [__main__] *)

(** [s.find(sub)]: the lowest index where [sub] starts in [s], -1 when it
    occurs nowhere. *)
Definition str_find (s sub : string) : Z :=
  match index 0 sub s with
  | Some n => Z.of_nat n
  | None => (-1)%Z
  end.

(** A slice bound as Python adjusts it: a negative one counts from the
    end; then it is clipped to the string. *)
Definition slice_bound (i len : Z) : Z :=
  if (i <? 0)%Z then Z.max (i + len) 0 else Z.min i len.

(** [s[start:stop]] *)
Definition str_slice (s : string) (start stop : Z) : string :=
  let len := Z.of_nat (String.length s) in
  let a := slice_bound start len in
  let b := slice_bound stop len in
  if (a <? b)%Z then substring (Z.to_nat a) (Z.to_nat (b - a)) s else EmptyString.

(** The script: construct a session with no options, get the NFL game
    resource as an object, print [from_cache] and the 22 characters around
    the first "game_id".  What it prints with [f"{expr=}"] is returned as
    the list of expressions with their values; the logging set-up writes
    to the log only. *)
Definition main (encode : string -> string)
    (s_get : OAuth2Session -> string -> Q -> Env -> Res Response * OAuth2Session * Env)
    (w : World) : Res (list (string * pyval)) * World :=
  match __init__ ∅ w with
  | (Raise e, w1) => (Raise e, w1)
  | (Ok sess, w1) =>
      match get encode s_get url_nfl true (sess, w1) with
      | (Raise e, (_, w2)) => (Raise e, w2)
      | (Ok (RText _), (_, w2)) => (Raise AttributeError, w2)
      | (Ok (RObj response), (_, w2)) =>
          let game_id_location := str_find (text response) "game_id" in
          let game_id :=
            str_slice (text response) (game_id_location - 1) (game_id_location + 21) in
          (Ok [("response.from_cache", PyBool (from_cache response));
               ("game_id", PyStr game_id)], w2)
      end
  end.

(** * Properties *)

Lemma Qltb_lt a b : Qltb a b = true <-> (a < b)%Q.
Proof.
  unfold Qltb. rewrite negb_true_iff, <- not_true_iff_false, Qle_bool_iff.
  split; [apply Qnot_le_lt | apply Qlt_not_le].
Qed.

(** ** Credentials *)

Lemma path_exists_none p self w :
  fs (env w) !! p = None -> path_exists p (self, w) = (Ok false, (self, w)).
Proof.
  intros H. unfold path_exists. simpl. rewrite H.
  rewrite bool_decide_eq_false_2; [done | by intros [? ?]].
Qed.

Lemma path_exists_some p t self w :
  fs (env w) !! p = Some t -> path_exists p (self, w) = (Ok true, (self, w)).
Proof.
  intros H. unfold path_exists. simpl. rewrite H.
  rewrite bool_decide_eq_true_2; [done | by eexists].
Qed.

(** What [_load_credentials] does with a credentials file that is there. *)
Lemma load_credentials_present self w t :
  fs (env w) !! credentials_file self = Some t ->
  _load_credentials (self, w) =
    match json_loads t with
    | Raise ex => (Raise ex, (self, w))
    | Ok d =>
      match getitem d "client_id" with
      | Raise ex => (Raise ex, (self, w))
      | Ok cid =>
        if py_ne_str cid EmptyString then
          match getitem d "client_secret" with
          | Raise ex => (Raise ex, (set_client_id cid self, w))
          | Ok secret =>
            if py_ne_str secret EmptyString then
              match getitem d "callback_url" with
              | Raise ex => (Raise ex, (set_client_secret secret (set_client_id cid self), w))
              | Ok cb =>
                (Ok tt, (set_callback_url cb (set_client_secret secret (set_client_id cid self)), w))
              end
            else (Raise (AssertionError "Credentials file needs to be updated"),
                  (set_client_secret secret (set_client_id cid self), w))
          end
        else (Raise (AssertionError "Credentials file needs to be updated"),
              (set_client_id cid self, w))
      end
    end.
Proof.
  intros H. unfold _load_credentials, bind, get_self. cbn [fst snd].
  rewrite (path_exists_some _ t) by done. simpl.
  unfold read_text. simpl. rewrite H. unfold lift_res.
  destruct (json_loads t) as [d|ex]; [|done].
  destruct (getitem d "client_id") as [cid|ex]; [|done]. simpl.
  unfold assert_. destruct (py_ne_str cid EmptyString); [|done]. simpl.
  destruct (getitem d "client_secret") as [secret|ex]; [|done]. simpl.
  destruct (py_ne_str secret EmptyString); [|done]. simpl.
  by destruct (getitem d "callback_url") as [cb|ex].
Qed.

Lemma load_credentials_absent self w :
  fs (env w) !! credentials_file self = None ->
  _load_credentials (self, w) =
    (Raise (creds_required (credentials_file self)),
     (self, set_env (set_fs (<[credentials_file self := json_dumps creds_template 1]>
                               (fs (env w))) (env w)) w)).
Proof.
  intros H. unfold _load_credentials, bind, get_self. cbn [fst snd].
  by rewrite path_exists_none.
Qed.

(** C3.  When the credentials file is absent, loading the credentials, and
    with it the construction of a session, writes the template (whose
    [client_id] and [client_secret] are empty strings) to the credentials
    path and fails with the "Credentials file is required" exception.
    Constructing again over the template as written fails too, now on the
    assertion: nothing proceeds until the operator fills the file in. *)
Theorem missing_credentials_file (kwargs : gmap string pyval) (w : World) :
  fs (env w) !! ".yahoo_fantasy_credentials.json" = None ->
  let path := ".yahoo_fantasy_credentials.json" in
  let w' := set_env (set_fs (<[path := json_dumps creds_template 1]> (fs (env w))) (env w)) w in
  _load_credentials (new_session kwargs, w)
    = (Raise (creds_required path), (new_session kwargs, w')) /\
  __init__ kwargs w = (Raise (creds_required path), w') /\
  getitem creds_template "client_id" = Ok (PyStr EmptyString) /\
  getitem creds_template "client_secret" = Ok (PyStr EmptyString) /\
  __init__ kwargs w' = (Raise (AssertionError "Credentials file needs to be updated"), w').
Proof.
  intros H path w'.
  assert (L : _load_credentials (new_session kwargs, w)
              = (Raise (creds_required path), (new_session kwargs, w'))).
  { by rewrite load_credentials_absent. }
  split; [exact L|]. split.
  { unfold __init__, bind. by rewrite L. }
  split; [reflexivity|]. split; [reflexivity|].
  unfold __init__, bind.
  rewrite (load_credentials_present _ _ (json_dumps creds_template 1)).
  - reflexivity.
  - subst w'. simpl. apply lookup_insert_eq.
Qed.

Lemma missing_credentials_file_witness :
  __init__ ∅ (world_of no_env)
  = (Raise (creds_required ".yahoo_fantasy_credentials.json"),
     world_of (set_fs {[".yahoo_fantasy_credentials.json" := json_dumps creds_template 1]} no_env)).
Proof.
  assert (H : fs (env (world_of no_env)) !! ".yahoo_fantasy_credentials.json" = None)
    by reflexivity.
  destruct (missing_credentials_file ∅ (world_of no_env) H) as (_ & I & _).
  exact I.
Defined.

Lemma load_credentials_ok self w self' w' :
  _load_credentials (self, w) = (Ok tt, (self', w')) ->
  w' = w /\
  exists cid secret cb,
    self' = set_callback_url cb (set_client_secret secret (set_client_id cid self)) /\
    py_ne_str cid EmptyString = true /\ py_ne_str secret EmptyString = true.
Proof.
  intros H. destruct (fs (env w) !! credentials_file self) as [t|] eqn:F.
  - rewrite (load_credentials_present _ _ t F) in H.
    destruct (json_loads t) as [d|]; [|done].
    destruct (getitem d "client_id") as [cid|]; [|done].
    destruct (py_ne_str cid EmptyString) eqn:C; [|done].
    destruct (getitem d "client_secret") as [secret|]; [|done].
    destruct (py_ne_str secret EmptyString) eqn:S; [|done].
    destruct (getitem d "callback_url") as [cb|]; [|done].
    inversion H; subst. split; [done|]. by exists cid, secret, cb.
  - by rewrite load_credentials_absent in H.
Qed.

Lemma py_ne_str_spec v t : py_ne_str v t = true <-> v <> PyStr t.
Proof.
  destruct v; simpl; try (split; [discriminate | done]).
  rewrite negb_true_iff. split.
  - intros E [= ->]. by rewrite String.eqb_refl in E.
  - intros N. apply String.eqb_neq. congruence.
Qed.

(** ** Construction *)

Lemma load_authorization_frame self w r self' w' :
  _load_authorization (self, w) = (r, (self', w')) ->
  self' = self \/
  exists t tok, fs (env w') !! auth_file self = Some t /\ json_loads t = Ok tok /\
                r = Ok tt /\ self' = set_auth_token_dict tok self.
Proof.
  unfold _load_authorization, bind, get_self, path_exists, read_text,
    _get_new_auth_token, write_text, lift_env, lift_res, ret, modify_self.
  cbn [fst snd].
  destruct (bool_decide (is_Some (fs (env w) !! auth_file self))); cbn [negb fst snd].
  - destruct (fs (env w) !! auth_file self) as [t|] eqn:F; [|intros [= <- <- <-]; by left].
    destruct (json_loads t) as [tok|] eqn:J; intros [= <- <- <-]; [|by left].
    right. by exists t, tok.
  - destruct (token_endpoint (env w)) as [|[tok|ex] rest]; cbn;
      try (intros [= <- <- <-]; by left).
    rewrite lookup_insert_eq. cbn. intros [= <- <- <-]. right.
    exists (json_dumps tok 1), tok. cbn. by rewrite lookup_insert_eq.
Qed.

(** The [OAuth2Session] that [_load_session] builds, before the mount. *)
Lemma load_session_eq self w :
  exists o,
    o_client_id o = client_id self /\ token o = auth_token_dict self /\
    auto_refresh_url o = access_token_url self /\
    token_updater o = _auth_file_saver self /\ adapters o = [] /\
    _load_session (self, w) =
      match as_number (cache_expire_hours self) with
      | None => (Raise TypeError, (set_s (Some o) self, w))
      | Some h =>
          if timedelta_hours_ok h then
            (Ok tt, (set_s (Some (mount "https://"
               {| cache := web_cache_dir self; cache_etags := false; heuristic := h |} o))
               self, w))
          else (Raise OverflowError, (set_s (Some o) self, w))
      end.
Proof.
  exists {| o_client_id := client_id self; token := auth_token_dict self;
            auto_refresh_url := access_token_url self;
            auto_refresh_kwargs :=
              PyDict [("client_id", client_id self); ("client_secret", client_secret self)];
            token_updater := _auth_file_saver self; adapters := [] |}.
  repeat (split; [reflexivity|]).
  unfold _load_session, bind, get_self, modify_self, raise. cbn [fst snd].
  destruct (as_number (cache_expire_hours self)) as [h|]; [|done].
  by destruct (timedelta_hours_ok h).
Qed.

(** A construction that succeeds went through the three loads. *)
Lemma init_ok kwargs w self w' :
  __init__ kwargs w = (Ok self, w') ->
  exists s1 s2 w2,
    _load_credentials (new_session kwargs, w) = (Ok tt, (s1, w)) /\
    _load_authorization (s1, w) = (Ok tt, (s2, w2)) /\
    _load_session (set_s None s2, w2) = (Ok tt, (self, w')).
Proof.
  unfold __init__, bind at 1.
  destruct (_load_credentials (new_session kwargs, w)) as [[[]|ex] [s1 w1]] eqn:L1;
    [|done].
  destruct (load_credentials_ok _ _ _ _ L1) as [-> _].
  unfold bind at 1.
  destruct (_load_authorization (s1, w)) as [[[]|ex] [s2 w2]] eqn:L2; [|done].
  unfold bind at 1, modify_self at 1. cbn [fst snd].
  destruct (_load_session (set_s None s2, w2)) as [[[]|ex] [s3 w3]] eqn:L3; [|done].
  intros [= <- <-]. by exists s1, s2, w2.
Qed.

Lemma init_fields kwargs w self w' :
  __init__ kwargs w = (Ok self, w') ->
  request_delay self = request_delay (new_session kwargs) /\
  cache_expire_hours self = cache_expire_hours (new_session kwargs) /\
  web_cache_dir self = web_cache_dir (new_session kwargs) /\
  urls self = [] /\ cached_urls self = ∅ /\
  auth_file self = ".yahoo_fantasy_auth_token.json" /\
  py_ne_str (client_id self) EmptyString = true /\
  py_ne_str (client_secret self) EmptyString = true.
Proof.
  intros H. destruct (init_ok _ _ _ _ H) as (s1 & s2 & w2 & L1 & L2 & L3).
  destruct (load_credentials_ok _ _ _ _ L1) as (_ & cid & secret & cb & -> & C & S).
  destruct (load_session_eq (set_s None s2) w2) as (o & _ & _ & _ & _ & _ & E).
  rewrite E in L3. clear E.
  destruct (as_number (cache_expire_hours (set_s None s2))) as [h|]; [|done].
  destruct (timedelta_hours_ok h); [|done].
  injection L3 as <- <-.
  by destruct (load_authorization_frame _ _ _ _ _ L2) as [->|(t & tok & _ & _ & _ & ->)].
Qed.

(** C6 (as the code has it).  After a successful credential load, and so
    in every constructed session, [client_id] and [client_secret] both
    differ from the empty string; the test is [!= ""], which a value that
    is no string passes.  When the file gives the empty string for either
    of them, construction fails on the assertion and leaves the world as it
    was: no token is asked for and no request goes out. *)
Theorem credentials_checked (kwargs : gmap string pyval) (w : World) :
  (forall self0 self' w',
     _load_credentials (self0, w) = (Ok tt, (self', w')) ->
     client_id self' <> PyStr EmptyString /\ client_secret self' <> PyStr EmptyString) /\
  (forall self w',
     __init__ kwargs w = (Ok self, w') ->
     client_id self <> PyStr EmptyString /\ client_secret self <> PyStr EmptyString) /\
  (forall t d cid secret,
     fs (env w) !! ".yahoo_fantasy_credentials.json" = Some t ->
     json_loads t = Ok d ->
     getitem d "client_id" = Ok cid -> getitem d "client_secret" = Ok secret ->
     cid = PyStr EmptyString \/ secret = PyStr EmptyString ->
     __init__ kwargs w
       = (Raise (AssertionError "Credentials file needs to be updated"), w)).
Proof.
  split; [|split].
  - intros self0 self' w' L.
    destruct (load_credentials_ok _ _ _ _ L) as (_ & cid & secret & cb & -> & C & S).
    split; by apply py_ne_str_spec.
  - intros self w' H.
    destruct (init_fields _ _ _ _ H) as (_ & _ & _ & _ & _ & _ & C & S).
    split; by apply py_ne_str_spec.
  - intros t d cid secret F J C S E.
    unfold __init__, bind.
    rewrite (load_credentials_present (new_session kwargs) w t F), J, C, S.
    destruct E as [-> | ->]; [done|].
    by destruct (py_ne_str cid EmptyString).
Qed.

Lemma credentials_checked_witness :
  (exists self w',
     __init__ ∅ (world_of env_ready) = (Ok self, w') /\
     client_id self <> PyStr EmptyString /\ client_secret self <> PyStr EmptyString) /\
  __init__ ∅ (world_of (set_fs {[".yahoo_fantasy_credentials.json" := json_dumps creds_template 1]} no_env))
    = (Raise (AssertionError "Credentials file needs to be updated"),
       world_of (set_fs {[".yahoo_fantasy_credentials.json" := json_dumps creds_template 1]} no_env)).
Proof.
  split.
  - eassert (E : __init__ ∅ (world_of env_ready) = (Ok _, _)) by (vm_compute; reflexivity).
    eexists _, _. split; [exact E|].
    exact (proj1 (proj2 (credentials_checked ∅ (world_of env_ready))) _ _ E).
  - apply (proj2 (proj2 (credentials_checked ∅ _))
             (json_dumps creds_template 1) creds_template (PyStr EmptyString) (PyStr EmptyString));
      try reflexivity.
    by left.
Defined.

(** C6, as stated, fails: with [null] for [client_id] in the credentials
    file the load succeeds, and the session's [client_id] is [None], not a
    non-empty string. *)
Lemma credentials_not_strings :
  exists self w',
    __init__ ∅ (world_of env_null) = (Ok self, w') /\
    client_id self = PyNone /\ nonempty_str (client_id self) = false.
Proof.
  eexists _, _. split; [vm_compute; reflexivity|]. split; reflexivity.
Qed.

(** C9.  A construction option replaces its default only when its value
    is truthy: a session that was constructed has the value passed for
    [request_delay], [cache_expire_hours] and [web_cache_dir] when that
    value is truthy, and 0.1, 168 and ".yahoo_web_cache" when it is falsy
    or was not passed at all. *)
Theorem falsy_options_keep_defaults (kwargs : gmap string pyval) (w : World)
    (self : YahooSession) (w' : World) :
  __init__ kwargs w = (Ok self, w') ->
  request_delay self =
    (if truthy (kwargs_get kwargs "request_delay")
     then kwargs_get kwargs "request_delay" else PyFloat (1 # 10)) /\
  cache_expire_hours self =
    (if truthy (kwargs_get kwargs "cache_expire_hours")
     then kwargs_get kwargs "cache_expire_hours" else PyInt 168) /\
  web_cache_dir self =
    (if truthy (kwargs_get kwargs "web_cache_dir")
     then kwargs_get kwargs "web_cache_dir" else PyStr ".yahoo_web_cache").
Proof.
  intros H. by destruct (init_fields _ _ _ _ H) as (-> & -> & -> & _).
Qed.

Lemma falsy_options_keep_defaults_witness :
  exists self w',
    __init__ kwargs_falsy (world_of env_ready) = (Ok self, w') /\
    request_delay self = PyFloat (1 # 10) /\
    cache_expire_hours self = PyInt 168 /\
    web_cache_dir self = PyStr ".yahoo_web_cache".
Proof.
  eassert (E : __init__ kwargs_falsy (world_of env_ready) = (Ok _, _))
    by (vm_compute; reflexivity).
  eexists _, _. split; [exact E|].
  exact (falsy_options_keep_defaults _ _ _ _ E).
Defined.

(** ** get *)

Section GetFacts.

Variable encode : string -> string.
Variable s_get : OAuth2Session -> string -> Q -> Env -> Res Response * OAuth2Session * Env.

Local Abbreviation request := (session_request s_get).
Local Abbreviation get_ := (get encode s_get).

(** The transport touches the [OAuth2Session] object and the environment,
    nothing else. *)
Lemma request_frame url st res st1 :
  request url st = (res, st1) ->
  request_delay (fst st1) = request_delay (fst st) /\
  urls (fst st1) = urls (fst st) /\
  cached_urls (fst st1) = cached_urls (fst st) /\
  now (snd st1) = now (snd st) /\
  sleeps (snd st1) = sleeps (snd st).
Proof.
  destruct st as [self w]. unfold session_request.
  destruct (s self) as [o|].
  - destruct (s_get o url (now w) (env w)) as [[res' o'] e'].
    by intros [= <- <-].
  - by intros [= <- <-].
Qed.

(** Nor does it touch the timer. *)
Lemma request_timer url st res st1 :
  request url st = (res, st1) -> timer (snd st1) = timer (snd st).
Proof.
  destruct st as [self w]. unfold session_request.
  destruct (s self) as [o|].
  - destruct (s_get o url (now w) (env w)) as [[res' o'] e'].
    by intros [= <- <-].
  - by intros [= <- <-].
Qed.

Lemma request_delay_ok url st res st1 :
  request url st = (res, st1) ->
  delay_ok (request_delay (fst st1)) (snd st1)
  = delay_ok (request_delay (fst st)) (snd st).
Proof.
  intros H. destruct (request_frame _ _ _ _ H) as (RD & _ & _ & C & _).
  unfold delay_ok. by rewrite RD, C, (request_timer _ _ _ _ H).
Qed.

Lemma get_transport_error url return_object st ex st1 :
  request url st = (Raise ex, st1) ->
  get_ url return_object st = (Raise ex, st1).
Proof. intros H. unfold get, bind. by rewrite H. Qed.

Lemma get_etag url return_object st r st1 v :
  request url st = (Ok r, st1) ->
  headers_get (headers r) "etag" = Some v ->
  get_ url return_object st = (Raise (AssertionError EmptyString), st1).
Proof.
  intros H E. unfold get, bind at 1. rewrite H.
  unfold bind at 1. by rewrite E.
Qed.

Lemma in_time_range_spec d :
  in_time_range d = true <->
  (-9223372036854775808 <= d * 1000000000 /\ d * 1000000000 <= 9223372036854775807)%Q.
Proof. unfold in_time_range. by rewrite andb_true_iff, !Qle_bool_iff. Qed.

Lemma time_sleep_ok v self w :
  delay_ok v w = true -> truthy v = true ->
  exists d, as_number v = Some d /\ (0 <= d)%Q /\
    time_sleep v (self, w) =
      (Ok tt, (self, {| env := env w; now := (now w + d)%Q;
                        sleeps := (sleeps w ++ [v])%list; timer := timer w |})).
Proof.
  unfold delay_ok, time_sleep. intros D T. rewrite T in D. cbn [negb orb] in D.
  destruct (as_number v) as [d|]; [|done].
  apply andb_true_iff in D as [D O]. apply andb_true_iff in D as [R D].
  exists d. cbn [fst snd]. rewrite R, D, O. split; [done|]. split; [|done].
  by apply Qle_bool_iff.
Qed.

(** A call that got a response without ETag, and whose sleep, if there is
    one, goes well: sleep as the test says, record, then the status. *)
Lemma get_response url return_object st r st1 :
  request url st = (Ok r, st1) ->
  headers_get (headers r) "etag" = None ->
  delay_ok (request_delay (fst st)) (snd st) || from_cache r = true ->
  get_ url return_object st =
    (match raise_for_status r with
     | Raise ex => Raise ex
     | Ok _ => Ok (if return_object then RObj r else RText (text r))
     end, after_get encode url r st1).
Proof.
  intros H E D. rewrite <- (request_delay_ok _ _ _ _ H) in D.
  destruct st1 as [self1 w1]. cbn [fst snd] in D.
  unfold get, bind at 1. rewrite H.
  unfold bind at 1. rewrite E.
  rewrite bool_decide_eq_true_2 by done. cbn [assert_ ret].
  unfold bind at 1, get_self at 1. cbn [fst snd].
  unfold after_get.
  destruct (truthy (request_delay self1)) eqn:T; cbn [andb].
  - destruct (from_cache r) eqn:FC; cbn [negb].
    + unfold bind, ret, modify_self, lift_res. cbn [fst snd].
      destruct (raise_for_status r) as [[]|ex]; by destruct return_object.
    + rewrite orb_false_r in D.
      destruct (time_sleep_ok _ self1 w1 D T) as (d & N & _ & S).
      unfold bind at 1. rewrite S, N.
      unfold bind, ret, modify_self, lift_res. cbn [fst snd].
      destruct (raise_for_status r) as [[]|ex]; by destruct return_object.
  - unfold bind, ret, modify_self, lift_res. cbn [fst snd].
    destruct (from_cache r); cbn [negb fst snd];
      destruct (raise_for_status r) as [[]|ex]; by destruct return_object.
Qed.

(** A falsy delay is never slept on, so it is fine whatever it is. *)
Lemma falsy_delay_ok v w : truthy v = false -> delay_ok v w = true.
Proof. unfold delay_ok. by intros ->. Qed.

(** The other case: the sleep is called with a delay [time.sleep] refuses,
    and [get] ends there, before it records anything. *)
Lemma get_sleep_fails url return_object st r self1 w1 :
  request url st = (Ok r, (self1, w1)) ->
  headers_get (headers r) "etag" = None ->
  delay_ok (request_delay (fst st)) (snd st) || from_cache r = false ->
  exists ex,
    (ex = TypeError \/ ex = ValueError \/ ex = OverflowError \/ ex = OSError) /\
    get_ url return_object st =
      (Raise ex, (self1, {| env := env w1; now := now w1;
                            sleeps := (sleeps w1 ++ [request_delay self1])%list;
                            timer := timer w1 |})).
Proof.
  intros H E D. rewrite <- (request_delay_ok _ _ _ _ H) in D. cbn [fst snd] in D.
  apply orb_false_iff in D as [D FC].
  assert (T : truthy (request_delay self1) = true).
  { destruct (truthy (request_delay self1)) eqn:T; [done|].
    by rewrite falsy_delay_ok in D. }
  unfold get, bind at 1. rewrite H.
  unfold bind at 1. rewrite E.
  rewrite bool_decide_eq_true_2 by done. cbn [assert_ ret].
  unfold bind at 1, get_self at 1. cbn [fst snd].
  rewrite T, FC. cbn [andb negb]. unfold bind at 1, time_sleep.
  unfold delay_ok in D. rewrite T in D. cbn [negb orb] in D. cbn [fst snd].
  destruct (as_number (request_delay self1)) as [d|].
  - destruct (in_time_range d); cbn [andb] in D.
    + destruct (Qle_bool 0 d); cbn [andb] in D.
      * rewrite D. exists OSError. split; [by right; right; right | done].
      * exists ValueError. split; [by right; left | done].
    + exists OverflowError. split; [by right; right; left | done].
  - exists TypeError. split; [by left | done].
Qed.

(** Whatever a call of [get] ends with: the delay stays, [urls] keeps
    what it had and gains one entry at most, and the HTTP layer is as the
    one request left it. *)
Lemma get_frame url return_object st res st2 :
  get_ url return_object st = (res, st2) ->
  request_delay (fst st2) = request_delay (fst st) /\
  (exists suffix, urls (fst st2) = (urls (fst st) ++ suffix)%list /\
                  (length suffix <= 1)%nat) /\
  s (fst st2) = s (fst (snd (request url st))) /\
  env (snd st2) = env (snd (snd (request url st))).
Proof.
  intros G.
  destruct (request url st) as [[r|ex] [self1 w1]] eqn:H.
  - destruct (request_frame _ _ _ _ H) as (RD & U & _). cbn [fst snd] in *.
    destruct (headers_get (headers r) "etag") as [v|] eqn:E.
    + rewrite (get_etag _ _ _ _ _ _ H E) in G. injection G as <- <-. cbn [fst snd].
      split; [done|]. split; [|done]. exists []. rewrite app_nil_r. split; [done | cbn; lia].
    + destruct (delay_ok (request_delay (fst st)) (snd st) || from_cache r) eqn:D.
      * rewrite (get_response _ _ _ _ _ H E D) in G. injection G as <- <-.
        unfold after_get. cbn [fst snd]. split; [by destruct (from_cache r)|].
        split; [|split].
        -- exists [r_url r]. rewrite <- U. split; [by destruct (from_cache r) | cbn; lia].
        -- by destruct (from_cache r).
        -- by destruct (truthy (request_delay self1) && negb (from_cache r)).
      * destruct (get_sleep_fails _ return_object _ _ _ _ H E D) as (ex & _ & G').
        rewrite G' in G. injection G as <- <-. cbn [fst snd].
        split; [done|]. split; [|done]. exists []. rewrite app_nil_r. split; [done | cbn; lia].
  - destruct (request_frame _ _ _ _ H) as (RD & U & _). cbn [fst snd] in *.
    rewrite (get_transport_error _ _ _ _ _ H) in G. injection G as <- <-.
    cbn [fst snd]. split; [done|]. split; [|done]. exists []. rewrite app_nil_r. split; [done | cbn; lia].
Qed.

(** Of the session object a call of [get] changes [s], [cached_urls] and
    [urls], and nothing else. *)
Lemma get_shape url return_object st res st2 :
  get_ url return_object st = (res, st2) ->
  exists l m, fst st2 = set_urls l (set_cached_urls m (fst (snd (request url st)))).
Proof.
  intros G.
  assert (I : forall x : YahooSession, x = set_urls (urls x) (set_cached_urls (cached_urls x) x))
    by (by intros []).
  destruct (request url st) as [[r|ex] [self1 w1]] eqn:H; cbn [fst snd].
  - destruct (headers_get (headers r) "etag") as [v|] eqn:E.
    { rewrite (get_etag _ _ _ _ _ _ H E) in G. injection G as _ <-. eauto. }
    destruct (delay_ok (request_delay (fst st)) (snd st) || from_cache r) eqn:D.
    + rewrite (get_response _ _ _ _ _ H E D) in G. injection G as _ <-.
      unfold after_get. cbn [fst]. destruct (from_cache r).
      * exists (urls self1 ++ [r_url r])%list, (cached_urls self1). by destruct self1.
      * by exists (urls self1 ++ [r_url r])%list, (<[encode url := r_url r]> (cached_urls self1)).
    + destruct (get_sleep_fails _ return_object _ _ _ _ H E D) as (ex & _ & G').
      rewrite G' in G. injection G as _ <-. eauto.
  - rewrite (get_transport_error _ _ _ _ _ H) in G. injection G as _ <-. eauto.
Qed.

(** A call that returns a value: what it returns. *)
Lemma get_ok url return_object st v st2 :
  get_ url return_object st = (Ok v, st2) ->
  exists r st1,
    request url st = (Ok r, st1) /\
    headers_get (headers r) "etag" = None /\
    raise_for_status r = Ok tt /\
    v = (if return_object then RObj r else RText (text r)) /\
    st2 = after_get encode url r st1.
Proof.
  intros G.
  destruct (request url st) as [[r|ex] [self1 w1]] eqn:H.
  - destruct (headers_get (headers r) "etag") as [x|] eqn:E.
    { by rewrite (get_etag _ _ _ _ _ _ H E) in G. }
    destruct (delay_ok (request_delay (fst st)) (snd st) || from_cache r) eqn:D.
    + rewrite (get_response _ _ _ _ _ H E D) in G.
      destruct (raise_for_status r) as [[]|] eqn:RS; [|done].
      injection G as <- <-. by exists r, (self1, w1).
    + destruct (get_sleep_fails _ return_object _ _ _ _ H E D) as (ex & _ & G').
      by rewrite G' in G.
  - by rewrite (get_transport_error _ _ _ _ _ H) in G.
Qed.

(** C4.  A call of [get] whose response carries an ETag header (in any
    spelling of the name, under any HTTP status) fails with an assertion
    error right after the request: no value is returned, and nothing is
    slept, recorded or changed beyond what the request itself did. *)
Theorem etag_fails_fast url return_object st r st1 v :
  request url st = (Ok r, st1) ->
  headers_get (headers r) "etag" = Some v ->
  get_ url return_object st = (Raise (AssertionError EmptyString), st1) /\
  urls (fst st1) = urls (fst st) /\
  cached_urls (fst st1) = cached_urls (fst st) /\
  sleeps (snd st1) = sleeps (snd st) /\
  now (snd st1) = now (snd st).
Proof.
  intros H E. split; [by apply (get_etag _ _ _ r _ v)|].
  by destruct (request_frame _ _ _ _ H) as (_ & -> & -> & -> & ->).
Qed.

(** C5 (as the code has it).  A call of [get] whose response has a 4xx or
    5xx status ends in an exception, which is the HTTP error of that status
    when the response has no ETag and the sleep does not fail (the response
    came from the cache, or the delay is falsy or one that [time.sleep]
    takes: [delay_ok]); a response of any other status, 2xx or not, never
    ends in an HTTP error.  There is one request per call: the HTTP layer
    is left as that request left it. *)
Theorem http_error_raised url return_object st r st1 res st2 :
  request url st = (Ok r, st1) ->
  get_ url return_object st = (res, st2) ->
  ((400 <= status_code r < 600)%Z -> exists ex, res = Raise ex) /\
  ((400 <= status_code r < 600)%Z ->
   headers_get (headers r) "etag" = None ->
   delay_ok (request_delay (fst st)) (snd st) || from_cache r = true ->
   res = Raise (HTTPError (status_code r))) /\
  (~ (400 <= status_code r < 600)%Z -> forall c, res <> Raise (HTTPError c)) /\
  s (fst st2) = s (fst st1) /\ env (snd st2) = env (snd st1).
Proof.
  intros H G.
  assert (ST : forall x : Res unit,
            raise_for_status r = x ->
            ((400 <= status_code r < 600)%Z -> x = Raise (HTTPError (status_code r))) /\
            (~ (400 <= status_code r < 600)%Z -> x = Ok tt)).
  { intros x <-. unfold raise_for_status.
    destruct (400 <=? status_code r)%Z eqn:A, (status_code r <? 600)%Z eqn:B;
      cbn [andb]; split; intros I; try done; exfalso; lia. }
  destruct (get_frame _ _ _ _ _ G) as (_ & _ & S & V). rewrite H in S, V.
  repeat split; [| | |exact S|exact V].
  - intros I. destruct (headers_get (headers r) "etag") as [v|] eqn:E.
    { rewrite (get_etag _ _ _ _ _ _ H E) in G. injection G as <- _. eauto. }
    destruct (delay_ok (request_delay (fst st)) (snd st) || from_cache r) eqn:D.
    + rewrite (get_response _ _ _ _ _ H E D) in G. injection G as <- _.
      destruct (ST _ eq_refl) as [-> _]; eauto.
    + destruct st1 as [self1 w1].
      destruct (get_sleep_fails _ return_object _ _ _ _ H E D) as (ex & _ & G').
      rewrite G' in G. injection G as <- _. eauto.
  - intros I E D. rewrite (get_response _ _ _ _ _ H E D) in G. injection G as <- _.
    by destruct (ST _ eq_refl) as [-> _].
  - intros I c. destruct (headers_get (headers r) "etag") as [v|] eqn:E.
    { rewrite (get_etag _ _ _ _ _ _ H E) in G. by injection G as <- _. }
    destruct (delay_ok (request_delay (fst st)) (snd st) || from_cache r) eqn:D.
    + rewrite (get_response _ _ _ _ _ H E D) in G. injection G as <- _.
      by destruct (ST _ eq_refl) as [_ ->].
    + destruct st1 as [self1 w1].
      destruct (get_sleep_fails _ return_object _ _ _ _ H E D)
        as (ex & [-> | [-> | [-> | ->]]] & G');
        rewrite G' in G; by injection G as <- _.
Qed.

(** C8 (as the code has it).  No call of [get] removes or changes an entry
    of [urls]: what was there stays in front, and at most one entry comes
    behind it.  A call that gets a response without ETag, and whose sleep
    does not fail (the response came from the cache, or the delay is falsy
    or one that [time.sleep] takes: [delay_ok]), appends exactly one, the
    URL of the response, whatever the status; a call whose request fails or
    whose response has an ETag appends none. *)
Theorem urls_append_only url return_object st res st2 :
  get_ url return_object st = (res, st2) ->
  (exists suffix, urls (fst st2) = (urls (fst st) ++ suffix)%list /\
                  (length suffix <= 1)%nat) /\
  (forall r st1,
     request url st = (Ok r, st1) ->
     headers_get (headers r) "etag" = None ->
     delay_ok (request_delay (fst st)) (snd st) || from_cache r = true ->
     urls (fst st2) = (urls (fst st) ++ [r_url r])%list) /\
  (forall r st1 v,
     request url st = (Ok r, st1) ->
     headers_get (headers r) "etag" = Some v ->
     urls (fst st2) = urls (fst st)) /\
  (forall ex st1,
     request url st = (Raise ex, st1) ->
     urls (fst st2) = urls (fst st)).
Proof.
  intros G. split; [by destruct (get_frame _ _ _ _ _ G) as (_ & ? & _)|].
  split; [|split].
  - intros r [self1 w1] H E D. destruct (request_frame _ _ _ _ H) as (_ & U & _).
    rewrite (get_response _ _ _ _ _ H E D) in G. injection G as _ <-.
    cbn [fst snd after_get] in *. rewrite <- U. by destruct (from_cache r).
  - intros r st1 v H E. destruct (request_frame _ _ _ _ H) as (_ & U & _).
    rewrite (get_etag _ _ _ _ _ _ H E) in G. by injection G as _ <-.
  - intros ex st1 H. destruct (request_frame _ _ _ _ H) as (_ & U & _).
    rewrite (get_transport_error _ _ _ _ _ H) in G. by injection G as _ <-.
Qed.

(** C10 (as the code has it).  [get] is not atomic on an HTTP error: when
    the response has a 4xx or 5xx status and no ETag, and the sleep does
    not fail (the response came from the cache, or the delay is falsy or
    one that [time.sleep] takes: [delay_ok]), the call ends in the HTTP
    error, and by then the sleep has been done as the test says, the URL of
    the response is at the end of [urls], and, for a response not from the
    cache, in [cached_urls]. *)
Theorem http_error_after_effects url return_object st r self1 w1 :
  request url st = (Ok r, (self1, w1)) ->
  headers_get (headers r) "etag" = None ->
  (400 <= status_code r < 600)%Z ->
  delay_ok (request_delay (fst st)) (snd st) || from_cache r = true ->
  exists self2 w2,
    get_ url return_object st = (Raise (HTTPError (status_code r)), (self2, w2)) /\
    urls self2 = (urls (fst st) ++ [r_url r])%list /\
    cached_urls self2 =
      (if from_cache r then cached_urls (fst st)
       else <[encode url := r_url r]> (cached_urls (fst st))) /\
    sleeps w2 =
      (sleeps (snd st) ++
       if truthy (request_delay (fst st)) && negb (from_cache r)
       then [request_delay (fst st)] else [])%list.
Proof.
  intros H E I D. destruct (request_frame _ _ _ _ H) as (RD & U & C & _ & S).
  cbn [fst snd] in *. rewrite <- RD, <- U, <- C, <- S.
  eexists _, _. split.
  - rewrite (get_response _ _ _ _ _ H E D). unfold raise_for_status.
    destruct (400 <=? status_code r)%Z eqn:A, (status_code r <? 600)%Z eqn:B;
      cbn [andb]; try (exfalso; lia).
    unfold after_get. reflexivity.
  - cbn [fst snd]. split; [by destruct (from_cache r)|].
    split; [by destruct (from_cache r)|].
    destruct (truthy (request_delay self1) && negb (from_cache r)); [done|].
    by rewrite app_nil_r.
Qed.

(** *** Sleeping *)

Lemma truthy_number v d :
  as_number v = Some d -> (truthy v = true <-> ~ (d == 0)%Q).
Proof.
  destruct v as [|b|z|q| | |]; cbn; try done; intros [= <-].
  - by destruct b.
  - rewrite negb_true_iff, Z.eqb_neq. unfold Qeq. cbn. lia.
  - rewrite negb_true_iff, Z.eqb_neq. unfold Qeq. cbn. lia.
Qed.

Lemma positive_delay v d :
  as_number v = Some d -> (0 < d)%Q -> truthy v = true.
Proof.
  intros N P. apply (truthy_number _ _ N). intros Z. rewrite Z in P.
  by apply Qlt_irrefl in P.
Qed.

(** The sleeps of one call, whatever it ends with. *)
Lemma get_sleeps url return_object st res st2 :
  get_ url return_object st = (res, st2) ->
  sleeps (snd st2) =
    (sleeps (snd st) ++
     if truthy (request_delay (fst st))
     then replicate (fetched s_get url st) (request_delay (fst st)) else [])%list.
Proof.
  intros G. unfold fetched.
  destruct (request url st) as [[r|ex] [self1 w1]] eqn:H;
    destruct (request_frame _ _ _ _ H) as (RD & _ & _ & _ & S); cbn [fst snd] in *.
  - destruct (headers_get (headers r) "etag") as [v|] eqn:E.
    { rewrite (get_etag _ _ _ _ _ _ H E) in G. injection G as _ <-.
      cbn. rewrite S. by destruct (truthy _); rewrite app_nil_r. }
    rewrite bool_decide_eq_true_2 by done. cbn [andb].
    destruct (delay_ok (request_delay (fst st)) (snd st) || from_cache r) eqn:D.
    + rewrite (get_response _ _ _ _ _ H E D) in G. injection G as _ <-.
      unfold after_get. cbn [fst snd]. rewrite RD.
      destruct (truthy (request_delay (fst st))), (from_cache r); cbn;
        by rewrite S, ?app_nil_r.
    + destruct (get_sleep_fails _ return_object _ _ _ _ H E D) as (ex & _ & G').
      rewrite G' in G. injection G as _ <-. cbn [snd sleeps].
      apply orb_false_iff in D as [D ->]. rewrite RD, S.
      destruct (truthy (request_delay (fst st))) eqn:T; [done|].
      by rewrite falsy_delay_ok in D.
  - rewrite (get_transport_error _ _ _ _ _ H) in G. injection G as _ <-.
    cbn. rewrite S. by destruct (truthy _); rewrite app_nil_r.
Qed.

(** The clock over one call, for a delay above zero that [time.sleep]
    takes. *)
Lemma get_clock url return_object st res st2 d :
  get_ url return_object st = (res, st2) ->
  as_number (request_delay (fst st)) = Some d -> (0 < d)%Q ->
  delay_ok (request_delay (fst st)) (snd st) = true ->
  (now (snd st2) == now (snd st) + inject_Z (Z.of_nat (fetched s_get url st)) * d)%Q.
Proof.
  intros G N P D. pose proof (positive_delay _ _ N P) as T. unfold fetched.
  destruct (request url st) as [[r|ex] [self1 w1]] eqn:H;
    destruct (request_frame _ _ _ _ H) as (RD & _ & _ & C & _); cbn [fst snd] in *.
  - destruct (headers_get (headers r) "etag") as [v|] eqn:E.
    { rewrite (get_etag _ _ _ _ _ _ H E) in G. injection G as _ <-.
      cbn. rewrite C. ring. }
    rewrite bool_decide_eq_true_2 by done. cbn [andb].
    rewrite (get_response _ _ _ _ _ H E) in G by (by rewrite D).
    injection G as _ <-. unfold after_get. cbn [fst snd]. rewrite RD, T, N.
    destruct (from_cache r); cbn; rewrite C; ring.
  - rewrite (get_transport_error _ _ _ _ _ H) in G. injection G as _ <-.
    cbn. rewrite C. ring.
Qed.

(** The clock never goes back over a call, and the timer stays. *)
Lemma get_clock_le url return_object st res st2 :
  get_ url return_object st = (res, st2) ->
  (now (snd st) <= now (snd st2))%Q /\ timer (snd st2) = timer (snd st).
Proof.
  intros G.
  destruct (request url st) as [[r|ex] [self1 w1]] eqn:H;
    destruct (request_frame _ _ _ _ H) as (RD & _ & _ & C & _);
    pose proof (request_timer _ _ _ _ H) as TM; cbn [fst snd] in *.
  - destruct (headers_get (headers r) "etag") as [v|] eqn:E.
    { rewrite (get_etag _ _ _ _ _ _ H E) in G. injection G as _ <-.
      cbn [snd]. rewrite C. split; [apply Qle_refl | done]. }
    destruct (delay_ok (request_delay (fst st)) (snd st) || from_cache r) eqn:D.
    + rewrite (get_response _ _ _ _ _ H E D) in G. injection G as _ <-.
      unfold after_get. cbn [fst snd].
      destruct (truthy (request_delay self1) && negb (from_cache r)) eqn:B.
      * cbn [now timer]. apply andb_true_iff in B as [T FC].
        apply negb_true_iff in FC. rewrite FC, orb_false_r in D.
        rewrite <- (request_delay_ok _ _ _ _ H) in D. cbn [fst snd] in D.
        destruct (time_sleep_ok _ self1 w1 D T) as (d & N & P & _).
        rewrite N, C. split; [lra | done].
      * rewrite C. split; [apply Qle_refl | done].
    + destruct (get_sleep_fails _ return_object _ _ _ _ H E D) as (ex & _ & G').
      rewrite G' in G. injection G as _ <-. cbn [snd now timer].
      rewrite C. split; [apply Qle_refl | done].
  - rewrite (get_transport_error _ _ _ _ _ H) in G. injection G as _ <-.
    cbn [snd]. rewrite C. split; [apply Qle_refl | done].
Qed.

Lemma calls_delay st n st' :
  calls encode s_get st n st' -> request_delay (fst st') = request_delay (fst st).
Proof.
  induction 1 as [| |st n st1 url ro res st2 _ IH G]; try done.
  destruct (get_frame _ _ _ _ _ G) as (-> & _). exact IH.
Qed.

Lemma calls_clock st n st' :
  calls encode s_get st n st' ->
  (now (snd st) <= now (snd st'))%Q /\ timer (snd st') = timer (snd st).
Proof.
  induction 1 as [st|st n self w e R IH E|st n st1 url ro res st2 R IH G].
  - split; [apply Qle_refl | done].
  - destruct IH as [L TM]. cbn [snd advance now timer] in *. split; [lra | done].
  - destruct IH as [L TM]. destruct (get_clock_le _ _ _ _ _ G) as [L' TM'].
    split; [lra | congruence].
Qed.

(** C2 (as the code has it).  In a call of [get] whose response has no
    ETag, [sleep(request_delay)] is called if and only if [request_delay]
    is truthy (for a number: not zero) and the response did not come from
    the cache.  With a delay above zero, a sequence of calls, [n] of which
    got such a response over the network, calls [sleep] exactly [n] times
    and, the delay being one that [time.sleep] takes (in range, and taken
    by the timer all through the sequence), lasts [n] times the delay at
    least; calls served from the cache add nothing.  With a zero delay
    nothing sleeps.  Whatever the delay, a call whose request fails or
    whose response has an ETag calls no sleep and leaves the clock alone. *)
Theorem sleep_when_fetched st :
  (forall url return_object r st1 res st2,
     request url st = (Ok r, st1) ->
     headers_get (headers r) "etag" = None ->
     get_ url return_object st = (res, st2) ->
     sleeps (snd st2) =
       (sleeps (snd st) ++
        if truthy (request_delay (fst st)) && negb (from_cache r)
        then [request_delay (fst st)] else [])%list) /\
  (forall d, as_number (request_delay (fst st)) = Some d ->
     (truthy (request_delay (fst st)) = true <-> ~ (d == 0)%Q)) /\
  (forall d n st',
     as_number (request_delay (fst st)) = Some d -> (0 < d)%Q ->
     calls encode s_get st n st' ->
     sleeps (snd st') = (sleeps (snd st) ++ replicate n (request_delay (fst st)))%list /\
     (in_time_range d = true ->
      (forall t, (now (snd st) <= t <= now (snd st'))%Q -> timer (snd st) t d = true) ->
      (now (snd st) + inject_Z (Z.of_nat n) * d <= now (snd st'))%Q)) /\
  (forall n st',
     truthy (request_delay (fst st)) = false ->
     calls encode s_get st n st' ->
     sleeps (snd st') = sleeps (snd st)) /\
  (forall url return_object res st2,
     get_ url return_object st = (res, st2) ->
     (forall ex st1,
        request url st = (Raise ex, st1) ->
        sleeps (snd st2) = sleeps (snd st) /\ now (snd st2) = now (snd st)) /\
     (forall r st1 v,
        request url st = (Ok r, st1) ->
        headers_get (headers r) "etag" = Some v ->
        sleeps (snd st2) = sleeps (snd st) /\ now (snd st2) = now (snd st))).
Proof.
  split; [|split; [|split; [|split]]].
  - intros url ro r st1 res st2 H E G.
    rewrite (get_sleeps _ _ _ _ _ G). unfold fetched. rewrite H, E.
    rewrite bool_decide_eq_true_2 by done. cbn [andb].
    by destruct (truthy _), (from_cache r).
  - intros d N. by apply truthy_number.
  - intros d n st' N P R. split.
    + induction R as [|st n self w e R IH E|st n st1 url ro res st2 R IH G].
      * cbn. by rewrite app_nil_r.
      * by apply IH.
      * pose proof (calls_delay _ _ _ R) as RD.
        pose proof (positive_delay _ _ N P) as T.
        rewrite (get_sleeps _ _ _ _ _ G), RD, T, (IH N), replicate_add.
        by rewrite app_assoc.
    + intros Rg.
      induction R as [|st n self w e R IH E|st n st1 url ro res st2 R IH G]; intros Tm.
      * cbn. ring_simplify. apply Qle_refl.
      * cbn [snd advance now] in *.
        assert (C : (now (snd st) + inject_Z (Z.of_nat n) * d <= now w)%Q).
        { apply (IH N). intros t [L U]. apply Tm. split; lra. }
        lra.
      * destruct (calls_clock _ _ _ R) as [L1 TM1].
        destruct (get_clock_le _ _ _ _ _ G) as [L2 _].
        pose proof (calls_delay _ _ _ R) as RD.
        assert (C : (now (snd st) + inject_Z (Z.of_nat n) * d <= now (snd st1))%Q).
        { apply (IH N). intros t [L U]. apply Tm. split; lra. }
        assert (D : delay_ok (request_delay (fst st1)) (snd st1) = true).
        { unfold delay_ok. rewrite RD, N. cbv beta iota.
          rewrite Rg, TM1, Tm by (split; lra).
          rewrite (proj2 (Qle_bool_iff 0 d)) by lra. apply orb_true_r. }
        rewrite <- RD in N. rewrite (get_clock _ _ _ _ _ _ G N P D).
        rewrite Nat2Z.inj_add, inject_Z_plus. lra.
  - intros n st' T R.
    induction R as [|st n self w e R IH E|st n st1 url ro res st2 R IH G]; try done.
    + by apply IH.
    + rewrite (get_sleeps _ _ _ _ _ G), (calls_delay _ _ _ R), T, app_nil_r. by apply IH.
  - intros url ro res st2 G. split.
    + intros ex st1 H. destruct (request_frame _ _ _ _ H) as (_ & _ & _ & C & S).
      rewrite (get_transport_error _ _ _ _ _ H) in G. by injection G as _ <-.
    + intros r st1 v H E. destruct (request_frame _ _ _ _ H) as (_ & _ & _ & C & S).
      rewrite (get_etag _ _ _ _ _ _ H E) in G. by injection G as _ <-.
Qed.

End GetFacts.

(** *** The get properties at work *)

Lemma etag_fails_fast_witness :
  get plain (answer_with response_etag) url_nfl true (session_1, world_1)
  = (Raise (AssertionError EmptyString), (session_1, world_1)).
Proof.
  assert (H : session_request (answer_with response_etag) url_nfl (session_1, world_1)
              = (Ok response_etag, (session_1, world_1))) by (vm_compute; reflexivity).
  exact (proj1 (etag_fails_fast plain _ url_nfl true _ _ _ "abc" H eq_refl)).
Defined.

Lemma http_error_raised_witness :
  fst (get plain (answer_with response_404) url_nfl false (session_1, world_1))
  = Raise (HTTPError 404).
Proof.
  assert (H : session_request (answer_with response_404) url_nfl (session_1, world_1)
              = (Ok response_404, (session_1, world_1))) by (vm_compute; reflexivity).
  destruct (get plain (answer_with response_404) url_nfl false (session_1, world_1))
    as [res st2] eqn:G.
  destruct (http_error_raised plain _ url_nfl false _ _ _ _ _ H G) as (_ & E & _).
  apply E; [cbn; lia | reflexivity | vm_compute; reflexivity].
Defined.

(** C5, as stated, fails: a 304 response is no success, and [get] hands it
    back without raising anything. *)
Lemma status_304_not_raised :
  fst (get plain (answer_with response_304) url_nfl true (session_1, world_1))
  = Ok (RObj response_304).
Proof. vm_compute. reflexivity. Qed.

Lemma urls_append_only_witness :
  urls (fst (snd (get plain (answer_with response_200) url_nfl false (session_1, world_1))))
  = (urls session_1 ++ [url_nfl])%list.
Proof.
  assert (H : session_request (answer_with response_200) url_nfl (session_1, world_1)
              = (Ok response_200, (session_1, world_1))) by (vm_compute; reflexivity).
  destruct (get plain (answer_with response_200) url_nfl false (session_1, world_1))
    as [res st2] eqn:G.
  destruct (urls_append_only plain _ url_nfl false _ _ _ G) as (_ & A & _).
  apply (A _ _ H); [reflexivity | vm_compute; reflexivity].
Defined.

(** C8, as stated, fails: a call whose response has an ETag appends
    nothing to [urls]. *)
Lemma etag_call_not_recorded :
  urls session_1 = [] /\
  urls (fst (snd (get plain (answer_with response_etag) url_nfl true (session_1, world_1))))
  = [].
Proof. split; vm_compute; reflexivity. Qed.

Lemma http_error_after_effects_witness :
  exists self2 w2,
    get plain (answer_with response_404) url_nfl false (session_1, world_1)
    = (Raise (HTTPError 404), (self2, w2)) /\
    urls self2 = [url_nfl] /\
    cached_urls self2 = {[ url_nfl := url_nfl ]} /\
    sleeps w2 = [PyFloat (1 # 10)].
Proof.
  assert (H : session_request (answer_with response_404) url_nfl (session_1, world_1)
              = (Ok response_404, (session_1, world_1))) by (vm_compute; reflexivity).
  assert (I : (400 <= status_code response_404 < 600)%Z) by (cbn; lia).
  assert (D : delay_ok (request_delay (fst (session_1, world_1))) (snd (session_1, world_1))
              || from_cache response_404 = true) by (vm_compute; reflexivity).
  exact (http_error_after_effects plain _ url_nfl false _ _ _ _ H eq_refl I D).
Defined.

(** C10, as stated, fails: on a 304 response, which is no success, the
    state is changed all the same but no error is raised. *)
Lemma status_304_no_error :
  exists self2 w2,
    get plain (answer_with response_304) url_nfl false (session_1, world_1)
    = (Ok (RText EmptyString), (self2, w2)) /\
    urls self2 = [url_nfl] /\ sleeps w2 = [PyFloat (1 # 10)].
Proof. eexists _, _. split; [vm_compute; reflexivity|]. split; reflexivity. Qed.

Lemma sleep_when_fetched_witness :
  let st0 := (session_1, world_1) in
  let st1 := snd (get plain (answer_with response_200) url_nfl true st0) in
  let st2 := snd (get plain (answer_with response_200) url_nfl true st1) in
  let st3 := snd (get plain (answer_with response_etag) url_nfl true (session_neg, world_1)) in
  sleeps (snd st2) = (sleeps (snd st0) ++ replicate 2 (request_delay (fst st0)))%list /\
  (now (snd st0) + inject_Z (Z.of_nat 2) * (1 # 10) <= now (snd st2))%Q /\
  sleeps (snd st3) = sleeps world_1 /\ now (snd st3) = now world_1.
Proof.
  intros st0 st1 st2 st3.
  assert (R : calls plain (answer_with response_200) st0 2 st2).
  { change 2%nat with (0 + fetched (answer_with response_200) url_nfl st0
                         + fetched (answer_with response_200) url_nfl st1)%nat.
    eapply calls_get; [eapply calls_get; [apply calls_none|]|]; apply surjective_pairing. }
  destruct (proj1 (proj2 (proj2 (sleep_when_fetched plain _ st0))) (1 # 10) 2%nat st2
              eq_refl eq_refl R) as [S C].
  split; [exact S|]. split.
  - apply C; [vm_compute; reflexivity|].
    assert (Tm : timer (snd st0) = timer_64) by (vm_compute; reflexivity).
    eassert (N2 : now (snd st2) = _) by (vm_compute; reflexivity).
    intros t [_ U]. rewrite Tm. rewrite N2 in U. apply Qltb_lt. lra.
  - assert (H : session_request (answer_with response_etag) url_nfl (session_neg, world_1)
                = (Ok response_etag, (session_neg, world_1))) by (vm_compute; reflexivity).
    assert (G : get plain (answer_with response_etag) url_nfl true (session_neg, world_1)
                = (Raise (AssertionError EmptyString), st3)) by (vm_compute; reflexivity).
    destruct (sleep_when_fetched plain (answer_with response_etag) (session_neg, world_1))
      as (_ & _ & _ & _ & X).
    exact (proj2 (X _ _ _ _ G) _ _ "abc" H eq_refl).
Defined.

(** C2, as stated, fails: the delay is 0.1 and the response did not come
    from the cache, yet with an ETag on it the call sleeps not at all. *)
Lemma etag_call_no_sleep :
  truthy (request_delay session_1) = true /\
  from_cache response_etag = false /\
  sleeps world_1 = [] /\
  sleeps (snd (snd (get plain (answer_with response_etag) url_nfl true (session_1, world_1))))
  = [].
Proof. repeat split; vm_compute; reflexivity. Qed.

(** ** The session over the HTTP layer *)

Section HttpFacts.

Variable encode : string -> string.

(** The refresh: either nothing is written and the token stays, or the
    new token is in use and in the token file. *)
Lemma refresh_token_spec o t e path res o' e' :
  (forall tok e0,
     token_updater o tok e0 = (Ok tt, set_fs (<[path := json_dumps tok 1]> (fs e0)) e0)) ->
  refresh_token o t e = (res, o', e') ->
  adapters o' = adapters o /\ token_updater o' = token_updater o /\
  web_cache e' = web_cache e /\ network e' = network e /\ sent e' = sent e /\
  (forall tk, res = Ok tk -> tk = token o') /\
  ((token o' = token o /\ fs e' = fs e) \/
   (token_expired (token o) t = true /\
    fs e' = <[path := json_dumps (token o') 1]> (fs e))).
Proof.
  intros U. unfold refresh_token.
  destruct (token_expired (token o) t) eqn:X.
  - destruct (token_endpoint e) as [|[tok|ex] rest].
    + intros [= <- <- <-]. repeat split; try done. by left.
    + rewrite U. intros [= <- <- <-]. cbn. repeat split; try done.
      * by intros tk [= <-].
      * by right.
    + intros [= <- <- <-]. cbn. repeat split; try done. by left.
  - intros [= <- <- <-]. repeat split; try done.
    + by intros tk [= <-].
    + by left.
Qed.

Lemma fetch_spec o url t e path res o' e' :
  (forall tok e0,
     token_updater o tok e0 = (Ok tt, set_fs (<[path := json_dumps tok 1]> (fs e0)) e0)) ->
  fetch encode o url t e = (res, o', e') ->
  adapters o' = adapters o /\ token_updater o' = token_updater o /\
  (forall k, k <> encode url -> web_cache e' !! k = web_cache e !! k) /\
  (forall r, res = Ok r ->
     from_cache r = false /\
     web_cache e' !! encode url = Some {| stored_at := t; entry := r |}) /\
  ((token o' = token o /\ fs e' = fs e) \/
   fs e' = <[path := json_dumps (token o') 1]> (fs e)) /\
  (sent e' = sent e \/ sent e' = (sent e ++ [(url, token o', fs e')])%list).
Proof.
  intros U. unfold fetch.
  destruct (refresh_token o t e) as [[tok o1] e1] eqn:R.
  destruct (refresh_token_spec _ _ _ _ _ _ _ U R) as (A & V & C & N & S & K & F).
  assert (F' : (token o1 = token o /\ fs e1 = fs e) \/
               fs e1 = <[path := json_dumps (token o1) 1]> (fs e)).
  { destruct F as [F | [_ F]]; [by left | by right]. }
  destruct tok as [tk|ex].
  - rewrite (K tk eq_refl). clear K.
    destruct (network e1) as [|[r|ex] rest].
    + intros [= <- <- <-]. split_and!; try done; [congruence | by left].
    + intros [= <- <- <-]. cbn. split_and!; try done.
      * intros k Hk. by rewrite lookup_insert_ne, C.
      * intros r' [= <-]. by rewrite lookup_insert_eq.
      * right. by rewrite S.
    + intros [= <- <- <-]. cbn. split_and!; try done; [congruence|].
      right. by rewrite S.
  - intros [= <- <- <-]. split_and!; try done; [congruence | by left].
Qed.

(** What [cached_get] answers with, and what is in the cache after it. *)
Lemma cached_get_ok o url t e r o' e' :
  cached_get encode o url t e = (Ok r, o', e') ->
  exists a,
    get_adapter (adapters o) url = Some a /\
    ((exists c, web_cache e !! encode url = Some c /\ fresh a t c = true /\
                r = set_from_cache true (entry c) /\ o' = o /\ e' = e) \/
     (from_cache r = false /\ fetch encode o url t e = (Ok r, o', e'))).
Proof.
  unfold cached_get.
  destruct (get_adapter (adapters o) url) as [a|]; [|done].
  intros H. exists a. split; [done|].
  destruct (web_cache e !! encode url) as [c|] eqn:L.
  - destruct (fresh a t c) eqn:F.
    + injection H as <- <- <-. left. by exists c.
    + right. split; [|done]. unfold fetch in H.
      destruct (refresh_token o t e) as [[[tk|] o1] e1]; [|done].
      destruct (network e1) as [|[r0|] rest]; try done. by injection H as <- _ _.
  - right. split; [|done]. unfold fetch in H.
    destruct (refresh_token o t e) as [[[tk|] o1] e1]; [|done].
    destruct (network e1) as [|[r0|] rest]; try done. by injection H as <- _ _.
Qed.

Lemma cached_get_frame o url t e path res o' e' :
  (forall tok e0,
     token_updater o tok e0 = (Ok tt, set_fs (<[path := json_dumps tok 1]> (fs e0)) e0)) ->
  cached_get encode o url t e = (res, o', e') ->
  adapters o' = adapters o /\ token_updater o' = token_updater o /\
  (forall k, k <> encode url -> web_cache e' !! k = web_cache e !! k) /\
  ((token o' = token o /\ fs e' = fs e) \/
   fs e' = <[path := json_dumps (token o') 1]> (fs e)) /\
  (sent e' = sent e \/ sent e' = (sent e ++ [(url, token o', fs e')])%list).
Proof.
  intros U. unfold cached_get.
  assert (X : forall x, fetch encode o url t e = x -> x = (res, o', e') ->
    adapters o' = adapters o /\ token_updater o' = token_updater o /\
    (forall k, k <> encode url -> web_cache e' !! k = web_cache e !! k) /\
    ((token o' = token o /\ fs e' = fs e) \/
     fs e' = <[path := json_dumps (token o') 1]> (fs e)) /\
    (sent e' = sent e \/ sent e' = (sent e ++ [(url, token o', fs e')])%list)).
  { intros x F ->. by destruct (fetch_spec _ _ _ _ _ _ _ _ U F) as (? & ? & ? & _ & ? & ?). }
  destruct (get_adapter (adapters o) url) as [a|].
  - destruct (web_cache e !! encode url) as [c|]; [|by apply X].
    destruct (fresh a t c); [|by apply X].
    intros [= <- <- <-]. repeat split; try done; by left.
  - intros [= <- <- <-]. repeat split; try done; by left.
Qed.

End HttpFacts.

Lemma load_authorization_ok self w self' w' :
  _load_authorization (self, w) = (Ok tt, (self', w')) ->
  exists t tok,
    fs (env w') !! auth_file self = Some t /\ json_loads t = Ok tok /\
    self' = set_auth_token_dict tok self.
Proof.
  unfold _load_authorization, bind, get_self, path_exists, read_text,
    _get_new_auth_token, write_text, lift_env, lift_res, ret, modify_self.
  cbn [fst snd].
  destruct (bool_decide (is_Some (fs (env w) !! auth_file self))); cbn [negb fst snd].
  - destruct (fs (env w) !! auth_file self) as [t|] eqn:F; [|done].
    destruct (json_loads t) as [tok|] eqn:J; [|done].
    intros [= <- <-]. by exists t, tok.
  - destruct (token_endpoint (env w)) as [|[tok|ex] rest]; cbn; try done.
    rewrite lookup_insert_eq. cbn. intros [= <- <-].
    exists (json_dumps tok 1), tok. cbn. by rewrite lookup_insert_eq.
Qed.

(** Construction wires the session and reads the token the file holds. *)
Lemma init_wired kwargs w self w' :
  __init__ kwargs w = (Ok self, w') ->
  exists h, wired self h /\ token_on_disk self w'.
Proof.
  intros H. destruct (init_ok _ _ _ _ H) as (s1 & s2 & w2 & L1 & L2 & L3).
  destruct (load_authorization_ok _ _ _ _ L2) as (t & tok & F & J & ->).
  destruct (load_session_eq (set_s None (set_auth_token_dict tok s1)) w2)
    as (o & _ & T & _ & U & A & E).
  rewrite E in L3. clear E.
  destruct (as_number (cache_expire_hours (set_s None (set_auth_token_dict tok s1))))
    as [h|] eqn:N; [|done].
  destruct (timedelta_hours_ok h); [|done].
  injection L3 as <- <-. exists h. split.
  - eexists. split; [reflexivity|]. split; [exact N|]. split.
    + cbn. by rewrite A.
    + intros tk e. cbn. by rewrite U.
  - eexists _, t. split; [reflexivity|]. split; [exact F|]. cbn. by rewrite T.
Qed.

Section SessionFacts.

Variable encode : string -> string.

Local Abbreviation sget := (session_get encode).

(** One call over the HTTP layer keeps the session wired, leaves the
    cache entries of other URLs alone, keeps the token file in step with
    the token in use, and sends at most one request, with the token that
    is in the file at that moment. *)
Lemma session_get_inv self w h url return_object res self' w' :
  wired self h ->
  sget url return_object (self, w) = (res, (self', w')) ->
  wired self' h /\
  auth_file self' = auth_file self /\
  (forall k, k <> encode url -> web_cache (env w') !! k = web_cache (env w) !! k) /\
  (token_on_disk self w -> token_on_disk self' w') /\
  (forall o0 o1, s self = Some o0 -> s self' = Some o1 ->
     token o1 = token o0 \/
     fs (env w') !! auth_file self = Some (json_dumps (token o1) 1)) /\
  exists new,
    sent (env w') = (sent (env w) ++ new)%list /\
    (token_on_disk self w -> Forall (sent_saved_token (auth_file self)) new).
Proof.
  intros (o & So & N & A & U) G. unfold session_get in G.
  destruct (get_frame _ _ _ _ _ _ _ G) as (_ & _ & S2 & E2).
  destruct (get_shape _ _ _ _ _ _ _ G) as (l & m & Sh).
  unfold session_request in S2, E2, Sh. cbn [fst snd] in S2, E2, Sh.
  rewrite So in S2, E2, Sh.
  destruct (cached_get encode o url (now w) (env w)) as [[res1 o'] e'] eqn:C.
  cbn [fst snd] in S2, E2, Sh. cbn in E2. subst self'.
  destruct (cached_get_frame _ _ _ _ _ _ _ _ _ U C) as (A' & U' & K & F & S).
  assert (T : token_on_disk self w ->
              token_on_disk (set_urls l (set_cached_urls m (set_s (Some o') self))) w').
  { intros (o0 & t & So0 & Ft & J). rewrite So in So0. injection So0 as <-.
    unfold token_on_disk. rewrite E2. destruct F as [[Tk Fs] | Fs].
    - exists o', t. cbn. rewrite Fs, Tk. by split_and!.
    - exists o', (json_dumps (token o') 1). cbn. rewrite Fs, lookup_insert_eq. by split_and!. }
  split_and!.
  - exists o'. cbn. split_and!; try done; [by rewrite A' | by rewrite U'].
  - done.
  - by rewrite E2.
  - exact T.
  - intros o0 o1 So0 So1. rewrite So in So0. injection So0 as <-.
    cbn in So1. injection So1 as <-. rewrite E2.
    destruct F as [[Tk _] | Fs]; [by left | right].
    by rewrite Fs, lookup_insert_eq.
  - rewrite E2. destruct S as [-> | ->].
    + exists []. by rewrite app_nil_r.
    + eexists. split; [reflexivity|]. intros D. apply T in D as (o0 & t & So0 & Ft & J).
      cbn in So0. injection So0 as <-. rewrite E2 in Ft.
      apply Forall_singleton. by exists t.
Qed.

Lemma other_calls_inv st h url c st' :
  wired (fst st) h ->
  web_cache (env (snd st)) !! encode url = Some c ->
  other_calls encode url st st' ->
  wired (fst st') h /\ web_cache (env (snd st')) !! encode url = Some c.
Proof.
  intros W C R.
  induction R as [st|st self w d R IH _|st [self1 w1] u ro res [self2 w2] R IH Hu G];
    try done.
  - by apply IH.
  - destruct (IH W C) as [W1 C1].
    destruct (session_get_inv _ _ _ _ _ _ _ _ W1 G) as (W2 & _ & K & _).
    split; [done|]. cbn [fst snd] in *. by rewrite K.
Qed.

Lemma after_get_env u r st : env (snd (after_get encode u r st)) = env (snd st).
Proof.
  destruct st as [self w]. unfold after_get. cbn [snd].
  by destruct (truthy (request_delay self) && negb (from_cache r)).
Qed.

(** A fresh entry without ETag and with a status that raises nothing is
    what the next call for the URL returns. *)
Lemma session_get_hit self w h url return_object c :
  wired self h ->
  String.prefix (lower "https://") (lower url) = true ->
  web_cache (env w) !! encode url = Some c ->
  (now w - stored_at c < h * 3600)%Q ->
  headers_get (headers (entry c)) "etag" = None ->
  raise_for_status (entry c) = Ok tt ->
  exists st2,
    sget url return_object (self, w)
    = (Ok (if return_object then RObj (set_from_cache true (entry c))
           else RText (text (entry c))), st2).
Proof.
  intros (o & So & N & A & U) P C F E RS.
  assert (H : session_request (cached_get encode) url (self, w)
              = (Ok (set_from_cache true (entry c)), (set_s (Some o) self, set_env (env w) w))).
  { unfold session_request. rewrite So. unfold cached_get. rewrite A. cbn [get_adapter].
    rewrite P, C. unfold fresh. cbn [heuristic].
    by rewrite (proj2 (Qltb_lt _ _) F). }
  eexists. unfold session_get.
  rewrite (get_response _ _ _ _ _ _ _ H) by (try done; apply orb_true_r).
  unfold raise_for_status in *. cbn [status_code set_from_cache] in *.
  destruct ((400 <=? status_code (entry c))%Z && (status_code (entry c) <? 600)%Z); [done|].
  by destruct return_object.
Qed.

(** C1.  When a call [get(url)] returns, the cache holds an entry for the
    URL with the body returned, stored at the time of the call if the
    response came over the network.  While the age of that entry stays
    below the configured hours, the next call for the URL, whatever other
    URLs were asked for in between, returns the response from the cache
    ([from_cache] true) with the same body. *)
Theorem second_get_from_cache self w h url return_object v st1 st' :
  wired self h ->
  sget url return_object (self, w) = (Ok v, st1) ->
  other_calls encode url st1 st' ->
  exists c,
    web_cache (env (snd st')) !! encode url = Some c /\
    text (entry c) = body v /\
    (forall r, v = RObj r -> from_cache r = false -> stored_at c = now w) /\
    forall return_object',
      (now (snd st') - stored_at c < h * 3600)%Q ->
      exists r2 st2,
        sget url return_object' st'
        = (Ok (if return_object' then RObj r2 else RText (text r2)), st2) /\
        from_cache r2 = true /\ text r2 = body v.
Proof.
  intros W G R. destruct st1 as [self1 w1].
  destruct (session_get_inv _ _ _ _ _ _ _ _ W G) as (W1 & _).
  destruct W as (o & So & N & A & U).
  unfold session_get in G.
  destruct (get_ok _ _ _ _ _ _ _ G) as (r & [selfr wr] & H & E & RS & -> & St1).
  assert (Ew : env w1 = env wr).
  { change w1 with (snd (self1, w1)). rewrite St1. apply after_get_env. }
  unfold session_request in H. rewrite So in H.
  destruct (cached_get encode o url (now w) (env w)) as [[res o'] e'] eqn:C.
  injection H as -> _ <-. cbn [env set_env] in Ew.
  destruct (cached_get_ok _ _ _ _ _ _ _ _ C) as (a & Ga & Hit).
  assert (P : String.prefix (lower "https://") (lower url) = true).
  { rewrite A in Ga. cbn [get_adapter] in Ga.
    by destruct (String.prefix (lower "https://") (lower url)). }
  assert (X : exists c,
            web_cache (env w1) !! encode url = Some c /\
            headers (entry c) = headers r /\ status_code (entry c) = status_code r /\
            text (entry c) = text r /\
            (from_cache r = false -> stored_at c = now w)).
  { rewrite Ew. destruct Hit as [(c & Lc & _ & -> & _ & ->) | [Fc F]].
    - exists c. by split_and!.
    - destruct (fetch_spec _ _ _ _ _ _ _ _ _ U F) as (_ & _ & _ & Sr & _).
      destruct (Sr r eq_refl) as [_ L]. eexists. split; [exact L|]. by split_and!. }
  destruct X as (c & Lc & Hh & Hs & Ht & Hst).
  destruct (other_calls_inv (self1, w1) h url c st' W1 Lc R) as [W' C'].
  exists c. split_and!.
  - done.
  - rewrite Ht. by destruct return_object.
  - intros r' Hv Fc. apply Hst. destruct return_object; [|done]. by injection Hv as ->.
  - intros ro' Fr. destruct st' as [self' w'].
    destruct (session_get_hit self' w' h url ro' c W' P C' Fr) as [st2 G2].
    + by rewrite Hh.
    + unfold raise_for_status in *. by rewrite Hs.
    + exists (set_from_cache true (entry c)), st2. split_and!; [done | done |].
      cbn. rewrite Ht. by destruct return_object.
Qed.

(** C7.  Construction leaves the token file holding the token the session
    uses.  Every later call of [get] keeps it so, also when the HTTP layer
    refreshes an expired token on the way: a token that changed is the one
    the callback has put in the file, and each request that is sent carries
    the very token the file holds at that moment. *)
Theorem token_saved_before_use :
  (forall kwargs w self w',
     __init__ kwargs w = (Ok self, w') ->
     exists h, wired self h /\ token_on_disk self w') /\
  (forall self w h url return_object res self' w',
     wired self h -> token_on_disk self w ->
     sget url return_object (self, w) = (res, (self', w')) ->
     wired self' h /\ token_on_disk self' w' /\
     (forall o0 o1, s self = Some o0 -> s self' = Some o1 ->
        token o1 = token o0 \/
        fs (env w') !! auth_file self' = Some (json_dumps (token o1) 1)) /\
     exists new,
       sent (env w') = (sent (env w) ++ new)%list /\
       Forall (sent_saved_token (auth_file self')) new).
Proof.
  split; [apply init_wired|].
  intros self w h url ro res self' w' W D G.
  destruct (session_get_inv _ _ _ _ _ _ _ _ W G) as (W' & AF & _ & T & Rf & new & S & X).
  rewrite AF. split_and!; [done | by apply T | done |]. exists new. by split; [|apply X].
Qed.

End SessionFacts.

(** *** The deployed session at work *)

Lemma init_live : __init__ ∅ (world_of env_live) = (Ok session_2, world_2).
Proof. vm_compute. reflexivity. Qed.

Lemma second_get_from_cache_witness :
  let st1 := snd (session_get plain url_nfl false (session_2, world_2)) in
  let st' := (fst st1, advance 3600 (snd st1)) in
  exists r2 st2,
    session_get plain url_nfl true st' = (Ok (RObj r2), st2) /\
    from_cache r2 = true /\ text r2 = "<game_id>449</game_id>".
Proof.
  intros st1 st'.
  destruct (init_wired _ _ _ _ init_live) as (h & W & _).
  assert (Hh : h = inject_Z 168).
  { destruct W as (o & _ & N & _). vm_compute in N. by injection N as <-. }
  subst h.
  assert (G : session_get plain url_nfl false (session_2, world_2)
              = (Ok (RText "<game_id>449</game_id>"), st1)) by (vm_compute; reflexivity).
  assert (R : other_calls plain url_nfl st1 st').
  { subst st'. destruct st1 as [self1 w1]. apply other_wait; [apply other_none | discriminate]. }
  destruct (second_get_from_cache plain _ _ _ _ _ _ _ _ W G R) as (c & L & _ & _ & X).
  assert (C : c = {| stored_at := 0; entry := response_200 |}).
  { vm_compute in L. by injection L as <-. }
  subst c. destruct (X true) as (r2 & st2 & G2 & F2 & T2).
  - vm_compute. reflexivity.
  - exists r2, st2. exact (conj G2 (conj F2 T2)).
Defined.

Lemma token_saved_before_use_witness :
  let st := snd (session_get plain url_nfl true (session_2, advance 7200 world_2)) in
  token_on_disk (fst st) (snd st) /\
  fs (env (snd st)) !! ".yahoo_fantasy_auth_token.json" = Some (json_dumps token_1 1) /\
  sent (env (snd st)) = [(url_nfl, token_1, fs (env (snd st)))].
Proof.
  intros st.
  assert (A : fs (env (snd st)) !! ".yahoo_fantasy_auth_token.json"
                  = Some (json_dumps token_1 1) /\
              sent (env (snd st)) = [(url_nfl, token_1, fs (env (snd st)))])
    by (split; vm_compute; reflexivity).
  split; [|exact A]. clear A. subst st.
  destruct (proj1 (token_saved_before_use plain) _ _ _ _ init_live) as (h & W & D).
  assert (D' : token_on_disk session_2 (advance 7200 world_2)).
  { destruct D as (o & t & So & Ft & J). exists o, t. exact (conj So (conj Ft J)). }
  destruct (session_get plain url_nfl true (session_2, advance 7200 world_2))
    as [res [self' w']] eqn:G.
  cbn [fst snd].
  exact (proj1 (proj2 (proj2 (token_saved_before_use plain) _ _ _ _ _ _ _ _ W D' G))).
Defined.

(** * Further properties of the code *)

(** ** Loading the credentials *)

(** X1.  With the credentials file in place, [_load_credentials] only
    reads: whatever it ends with, the world is as it was, and when it
    succeeds the session's [client_id], [client_secret] and [callback_url]
    are the values the file gives under these keys. *)
Theorem load_credentials_reads_file self w t r self' w' :
  fs (env w) !! credentials_file self = Some t ->
  _load_credentials (self, w) = (r, (self', w')) ->
  w' = w /\
  (r = Ok tt ->
   exists d, json_loads t = Ok d /\
     getitem d "client_id" = Ok (client_id self') /\
     getitem d "client_secret" = Ok (client_secret self') /\
     getitem d "callback_url" = Ok (callback_url self')).
Proof.
  intros F L. rewrite (load_credentials_present _ _ t F) in L.
  destruct (json_loads t) as [d|ex]; [|by injection L as <- <- <-].
  destruct (getitem d "client_id") as [cid|ex] eqn:C; [|by injection L as <- <- <-].
  destruct (py_ne_str cid EmptyString); [|by injection L as <- <- <-].
  destruct (getitem d "client_secret") as [secret|ex] eqn:S; [|by injection L as <- <- <-].
  destruct (py_ne_str secret EmptyString); [|by injection L as <- <- <-].
  destruct (getitem d "callback_url") as [cb|ex] eqn:B; injection L as <- <- <-;
    split; try done.
  intros _. by exists d.
Qed.

Lemma load_credentials_reads_file_witness :
  exists self',
    _load_credentials (new_session ∅, world_of env_ready) = (Ok tt, (self', world_of env_ready)) /\
    client_id self' = PyStr "my-id" /\ client_secret self' = PyStr "my-secret" /\
    callback_url self' = PyStr "oob".
Proof.
  destruct (_load_credentials (new_session ∅, world_of env_ready)) as [r [self' w']] eqn:L.
  assert (F : fs (env (world_of env_ready)) !! credentials_file (new_session ∅)
              = Some (json_dumps creds_filled 1)) by (vm_compute; reflexivity).
  destruct (load_credentials_reads_file _ _ _ _ _ _ F L) as [-> D].
  assert (R : r = Ok tt).
  { rewrite (load_credentials_present _ _ _ F) in L. by injection L as <- _. }
  subst r. destruct (D eq_refl) as (d & J & C & S & B).
  injection J as <-. exists self'. split; [reflexivity|].
  cbn in C, S, B. by injection C as <-; injection S as <-; injection B as <-.
Defined.

(** X2.  A credentials file that cannot be used makes the load fail with
    the error of the first step that breaks: the decoding error of text
    that is no JSON, [TypeError] for JSON that is no object, [KeyError] for
    the first of [client_id], [client_secret], [callback_url] that is
    missing.  The keys before the missing one are set on the session by
    then; the world is untouched. *)
Theorem load_credentials_bad_file self w t :
  fs (env w) !! credentials_file self = Some t ->
  (forall ex, json_loads t = Raise ex ->
     _load_credentials (self, w) = (Raise ex, (self, w))) /\
  (forall d, json_loads t = Ok d -> (forall kvs, d <> PyDict kvs) ->
     _load_credentials (self, w) = (Raise TypeError, (self, w))) /\
  (forall kvs, json_loads t = Ok (PyDict kvs) ->
     assoc kvs "client_id" = None ->
     _load_credentials (self, w) = (Raise (KeyError "client_id"), (self, w))) /\
  (forall kvs cid, json_loads t = Ok (PyDict kvs) ->
     assoc kvs "client_id" = Some cid -> cid <> PyStr EmptyString ->
     assoc kvs "client_secret" = None ->
     _load_credentials (self, w)
     = (Raise (KeyError "client_secret"), (set_client_id cid self, w))) /\
  (forall kvs cid secret, json_loads t = Ok (PyDict kvs) ->
     assoc kvs "client_id" = Some cid -> cid <> PyStr EmptyString ->
     assoc kvs "client_secret" = Some secret -> secret <> PyStr EmptyString ->
     assoc kvs "callback_url" = None ->
     _load_credentials (self, w)
     = (Raise (KeyError "callback_url"),
        (set_client_secret secret (set_client_id cid self), w))).
Proof.
  intros F. rewrite (load_credentials_present _ _ t F). split_and!.
  - by intros ex ->.
  - intros d -> N. destruct d; try done. by destruct (N d).
  - intros kvs -> C. cbn. by rewrite C.
  - intros kvs cid -> C Nc S. cbn. rewrite C, S.
    by rewrite (proj2 (py_ne_str_spec _ _) Nc).
  - intros kvs cid secret -> C Nc S Ns B. cbn. rewrite C, S, B.
    by rewrite (proj2 (py_ne_str_spec _ _) Nc), (proj2 (py_ne_str_spec _ _) Ns).
Qed.

Lemma load_credentials_bad_file_witness :
  _load_credentials (new_session ∅, world_of env_no_callback)
  = (Raise (KeyError "callback_url"),
     (set_client_secret (PyStr "my-secret") (set_client_id (PyStr "my-id") (new_session ∅)),
      world_of env_no_callback)).
Proof.
  assert (F : fs (env (world_of env_no_callback)) !! credentials_file (new_session ∅)
              = Some (json_dumps creds_no_callback 1)) by (vm_compute; reflexivity).
  destruct (load_credentials_bad_file _ _ _ F) as (_ & _ & _ & _ & K).
  apply (K [("client_id", PyStr "my-id"); ("client_secret", PyStr "my-secret")]);
    try reflexivity; discriminate.
Defined.
Lemma load_authorization_present self w t :
  fs (env w) !! auth_file self = Some t ->
  _load_authorization (self, w) =
    match json_loads t with
    | Ok tok => (Ok tt, (set_auth_token_dict tok self, w))
    | Raise ex => (Raise ex, (self, w))
    end.
Proof.
  intros F. unfold _load_authorization, bind, get_self. cbn [fst snd].
  rewrite (path_exists_some _ t) by done. cbn [negb ret].
  unfold read_text. cbn [fst snd]. rewrite F. unfold lift_res, modify_self.
  by destruct (json_loads t).
Qed.

Lemma load_authorization_absent self w :
  fs (env w) !! auth_file self = None ->
  _load_authorization (self, w) =
    match token_endpoint (env w) with
    | [] => (Raise ConnectionError, (self, w))
    | Raise ex :: rest =>
        (Raise ex, (self, set_env (set_token_endpoint rest (env w)) w))
    | Ok tok :: rest =>
        (Ok tt, (set_auth_token_dict tok self,
                 set_env (set_fs (<[auth_file self := json_dumps tok 1]> (fs (env w)))
                            (set_token_endpoint rest (env w))) w))
    end.
Proof.
  intros F. unfold _load_authorization, bind, get_self. cbn [fst snd].
  rewrite path_exists_none by done. cbn [negb].
  unfold _get_new_auth_token. cbn [fst snd].
  destruct (token_endpoint (env w)) as [|[tok|ex] rest]; try done.
  unfold write_text, lift_env, read_text, lift_res, modify_self. cbn.
  by rewrite lookup_insert_eq.
Qed.

(** ** Loading the token *)

(** X3.  With the token file in place, [_load_authorization] asks nobody:
    the world, the answers of the token endpoint with it, is as it was; on
    success [auth_token_dict] is what the file decodes to, and a file that
    does not decode fails the load with the session unchanged. *)
Theorem load_authorization_reads_file self w t r self' w' :
  fs (env w) !! auth_file self = Some t ->
  _load_authorization (self, w) = (r, (self', w')) ->
  w' = w /\
  (r = Ok tt -> json_loads t = Ok (auth_token_dict self')) /\
  (forall ex, json_loads t = Raise ex -> r = Raise ex /\ self' = self).
Proof.
  intros F L. rewrite (load_authorization_present _ _ t F) in L.
  destruct (json_loads t) as [tok|ex]; injection L as <- <- <-; split_and!; try done.
  by intros ex' [= <-].
Qed.

Lemma load_authorization_reads_file_witness :
  exists self',
    _load_authorization (new_session ∅, world_of env_ready)
    = (Ok tt, (self', world_of env_ready)) /\
    auth_token_dict self' = token_0.
Proof.
  destruct (_load_authorization (new_session ∅, world_of env_ready))
    as [r [self' w']] eqn:L.
  assert (F : fs (env (world_of env_ready)) !! auth_file (new_session ∅)
              = Some (json_dumps token_0 1)) by (vm_compute; reflexivity).
  destruct (load_authorization_reads_file _ _ _ _ _ _ F L) as (-> & J & _).
  assert (R : r = Ok tt).
  { rewrite (load_authorization_present _ _ _ F) in L. by injection L as <- _. }
  subst r. exists self'. split; [reflexivity|].
  specialize (J eq_refl). by injection J as <-.
Defined.

(** X4.  Without a token file, [_load_authorization] takes one answer of
    the token endpoint.  A token is written to the token file as
    [json.dumps(token, indent=1)] and becomes [auth_token_dict]; an error
    is raised on, and then no token file is written.  No other file is
    touched. *)
Theorem load_authorization_first_time self w r self' w' :
  fs (env w) !! auth_file self = None ->
  _load_authorization (self, w) = (r, (self', w')) ->
  (forall p, p <> auth_file self -> fs (env w') !! p = fs (env w) !! p) /\
  (forall tok rest, token_endpoint (env w) = Ok tok :: rest ->
     r = Ok tt /\ auth_token_dict self' = tok /\
     fs (env w') !! auth_file self = Some (json_dumps tok 1) /\
     token_endpoint (env w') = rest) /\
  (forall ex rest, token_endpoint (env w) = Raise ex :: rest ->
     r = Raise ex /\ self' = self /\
     fs (env w') !! auth_file self = None /\
     token_endpoint (env w') = rest) /\
  (token_endpoint (env w) = [] ->
     r = Raise ConnectionError /\ self' = self /\ w' = w).
Proof.
  intros F L. rewrite (load_authorization_absent _ _ F) in L.
  destruct (token_endpoint (env w)) as [|[tok|ex] rest]; injection L as <- <- <-;
    split_and!; try done.
  - intros p Hp. cbn. by rewrite lookup_insert_ne.
  - intros tok' rest' [= <- <-]. cbn. by rewrite lookup_insert_eq.
  - by intros ex' rest' [= <- <-].
Qed.

Lemma load_authorization_first_time_witness :
  exists self' w',
    _load_authorization (new_session ∅, world_of env_first_run) = (Ok tt, (self', w')) /\
    auth_token_dict self' = token_0 /\
    fs (env w') !! ".yahoo_fantasy_auth_token.json" = Some (json_dumps token_0 1) /\
    token_endpoint (env w') = [].
Proof.
  destruct (_load_authorization (new_session ∅, world_of env_first_run))
    as [r [self' w']] eqn:L.
  assert (F : fs (env (world_of env_first_run)) !! auth_file (new_session ∅) = None)
    by (vm_compute; reflexivity).
  destruct (load_authorization_first_time _ _ _ _ _ F L) as (_ & T & _).
  destruct (T token_0 [] eq_refl) as (-> & A & B & C).
  exists self', w'. exact (conj eq_refl (conj A (conj B C))).
Defined.

(** ** Construction as a whole *)

Lemma load_credentials_world self w r self' w' :
  _load_credentials (self, w) = (r, (self', w')) ->
  auth_file self' = auth_file self /\
  cache_expire_hours self' = cache_expire_hours self /\
  token_endpoint (env w') = token_endpoint (env w) /\
  network (env w') = network (env w) /\ web_cache (env w') = web_cache (env w) /\
  sent (env w') = sent (env w) /\ now w' = now w /\ sleeps w' = sleeps w /\
  (forall p, p <> credentials_file self -> fs (env w') !! p = fs (env w) !! p).
Proof.
  intros L. destruct (fs (env w) !! credentials_file self) as [t|] eqn:F.
  - rewrite (load_credentials_present _ _ t F) in L.
    destruct (json_loads t) as [d|]; [|by injection L as <- <- <-].
    destruct (getitem d "client_id") as [cid|]; [|by injection L as <- <- <-].
    destruct (py_ne_str cid EmptyString); [|by injection L as <- <- <-].
    destruct (getitem d "client_secret") as [secret|]; [|by injection L as <- <- <-].
    destruct (py_ne_str secret EmptyString); [|by injection L as <- <- <-].
    by destruct (getitem d "callback_url") as [cb|]; injection L as <- <- <-.
  - rewrite (load_credentials_absent _ _ F) in L. injection L as <- <- <-.
    split_and!; try done. intros p Hp. cbn. by rewrite lookup_insert_ne.
Qed.

Lemma load_authorization_world self w r self' w' :
  _load_authorization (self, w) = (r, (self', w')) ->
  cache_expire_hours self' = cache_expire_hours self /\
  network (env w') = network (env w) /\ web_cache (env w') = web_cache (env w) /\
  sent (env w') = sent (env w) /\ now w' = now w /\ sleeps w' = sleeps w /\
  (forall p, p <> auth_file self -> fs (env w') !! p = fs (env w) !! p) /\
  (token_endpoint (env w') = token_endpoint (env w) \/
   exists a, token_endpoint (env w) = a :: token_endpoint (env w')) /\
  (is_Some (fs (env w) !! auth_file self) ->
   token_endpoint (env w') = token_endpoint (env w)).
Proof.
  intros L. destruct (fs (env w) !! auth_file self) as [t|] eqn:F.
  - rewrite (load_authorization_present _ _ t F) in L.
    destruct (json_loads t); injection L as <- <- <-; split_and!; try done; by left.
  - rewrite (load_authorization_absent _ _ F) in L.
    destruct (token_endpoint (env w)) as [|[tok|ex] rest] eqn:T;
      injection L as <- <- <-; split_and!; try done; try (by intros [? ?]).
    + by left.
    + intros p Hp. cbn. by rewrite lookup_insert_ne.
    + right. by eexists.
    + right. by eexists.
Qed.

(** The stages of a construction, whatever it ends with. *)
Lemma init_stages kwargs w r w' :
  __init__ kwargs w = (r, w') ->
  exists r1 s1 w1,
    _load_credentials (new_session kwargs, w) = (r1, (s1, w1)) /\
    ((exists e, r1 = Raise e /\ r = Raise e /\ w' = w1) \/
     (r1 = Ok tt /\ exists r2 s2, _load_authorization (s1, w1) = (r2, (s2, w')))).
Proof.
  unfold __init__, bind at 1.
  destruct (_load_credentials (new_session kwargs, w)) as [[[]|ex] [s1 w1]] eqn:L1.
  - unfold bind at 1.
    destruct (_load_authorization (s1, w1)) as [[[]|ex] [s2 w2]] eqn:L2.
    + unfold bind at 1, modify_self at 1. cbn [fst snd].
      destruct (load_session_eq (set_s None s2) w2) as (o & _ & _ & _ & _ & _ & E).
      rewrite E. intros H. exists (Ok tt), s1, w1. split; [done|]. right.
      split; [done|]. exists (Ok tt), s2.
      by destruct (as_number (cache_expire_hours (set_s None s2))) as [h|];
        [destruct (timedelta_hours_ok h)|]; injection H as _ <-.
    + intros [= <- <-]. exists (Ok tt), s1, w1. split; [done|]. right.
      split; [done|]. by exists (Raise ex), s2.
  - intros [= <- <-]. exists (Raise ex), s1, w1. split; [done|]. left. by exists ex.
Qed.

(** X5.  Construction makes no resource request and does not sleep: the
    pending network answers, the response cache, the requests sent, the
    clock and the sleep log are as before, whatever it ends with.  Of the
    files it can change the credentials file and the token file only, and
    it takes at most one answer of the token endpoint, none when the token
    file is there. *)
Theorem construction_quiet kwargs w r w' :
  __init__ kwargs w = (r, w') ->
  network (env w') = network (env w) /\ web_cache (env w') = web_cache (env w) /\
  sent (env w') = sent (env w) /\ now w' = now w /\ sleeps w' = sleeps w /\
  (forall p, p <> ".yahoo_fantasy_credentials.json" ->
             p <> ".yahoo_fantasy_auth_token.json" ->
             fs (env w') !! p = fs (env w) !! p) /\
  (token_endpoint (env w') = token_endpoint (env w) \/
   exists a, token_endpoint (env w) = a :: token_endpoint (env w')) /\
  (is_Some (fs (env w) !! ".yahoo_fantasy_auth_token.json") ->
   token_endpoint (env w') = token_endpoint (env w)).
Proof.
  intros H. destruct (init_stages _ _ _ _ H) as (r1 & s1 & w1 & L1 & C).
  destruct (load_credentials_world _ _ _ _ _ L1) as (A1 & _ & T1 & N1 & C1 & S1 & K1 & Z1 & F1).
  destruct C as [(e & -> & -> & ->) | (-> & r2 & s2 & L2)].
  - split_and!; try done; [|by left].
    intros p Hp _. by apply F1.
  - destruct (load_authorization_world _ _ _ _ _ L2)
      as (_ & N2 & C2 & S2 & K2 & Z2 & F2 & T2 & P2).
    rewrite A1 in F2, P2. cbn in F2, P2.
    split_and!; try congruence.
    + intros p Hp Hq. rewrite F2 by done. by apply F1.
    + rewrite <- T1. exact T2.
    + intros I. rewrite <- T1. apply P2. by rewrite F1.
Qed.

Lemma construction_quiet_witness :
  exists self w',
    __init__ ∅ (world_of env_first_run) = (Ok self, w') /\
    network (env w') = [] /\ sleeps w' = [] /\ token_endpoint (env w') = [].
Proof.
  eassert (E : __init__ ∅ (world_of env_first_run) = (Ok _, _)) by (vm_compute; reflexivity).
  eexists _, _. split; [exact E|].
  destruct (construction_quiet _ _ _ _ E) as (N & _ & _ & _ & S & _).
  split; [exact N|]. split; [exact S|]. vm_compute. reflexivity.
Defined.

Lemma load_credentials_same_file self w w2 r s1 :
  fs (env w2) !! credentials_file self = fs (env w) !! credentials_file self ->
  _load_credentials (self, w) = (Ok r, (s1, w)) ->
  _load_credentials (self, w2) = (Ok r, (s1, w2)).
Proof.
  intros F L. destruct (fs (env w) !! credentials_file self) as [t|] eqn:Fw.
  - rewrite (load_credentials_present _ _ t Fw) in L.
    rewrite (load_credentials_present _ _ t F).
    destruct (json_loads t) as [d|]; [|done].
    destruct (getitem d "client_id") as [cid|]; [|done].
    destruct (py_ne_str cid EmptyString); [|done].
    destruct (getitem d "client_secret") as [secret|]; [|done].
    destruct (py_ne_str secret EmptyString); [|done].
    destruct (getitem d "callback_url") as [cb|]; [|done].
    by injection L as <- <-.
  - by rewrite (load_credentials_absent _ _ Fw) in L.
Qed.

(** X6.  A construction that succeeded can be repeated: over the world it
    left, the same options give the same session again and change nothing.
    The token written by a first run is read back by the next, and the
    token endpoint is not asked a second time. *)
Theorem construction_repeats kwargs w self w' :
  __init__ kwargs w = (Ok self, w') ->
  __init__ kwargs w' = (Ok self, w').
Proof.
  intros H. destruct (init_ok _ _ _ _ H) as (s1 & s2 & w2 & L1 & L2 & L3).
  destruct (load_session_eq (set_s None s2) w2) as (o & _ & _ & _ & _ & _ & E).
  assert (W : w' = w2).
  { rewrite E in L3.
    by destruct (as_number (cache_expire_hours (set_s None s2))) as [h|];
      [destruct (timedelta_hours_ok h)|]; injection L3 as _ <-. }
  subst w'. clear E.
  destruct (load_credentials_world _ _ _ _ _ L1) as (A1 & _).
  destruct (load_authorization_world _ _ _ _ _ L2) as (_ & _ & _ & _ & _ & _ & F2 & _).
  assert (L1' : _load_credentials (new_session kwargs, w2) = (Ok tt, (s1, w2))).
  { apply (load_credentials_same_file _ w); [|done]. apply F2. by rewrite A1. }
  destruct (load_authorization_ok _ _ _ _ L2) as (t & tok & Ft & J & ->).
  assert (L2' : _load_authorization (s1, w2) = (Ok tt, (set_auth_token_dict tok s1, w2))).
  { by rewrite (load_authorization_present _ _ t Ft), J. }
  unfold __init__, bind at 1. rewrite L1'. unfold bind at 1. rewrite L2'.
  unfold bind at 1, modify_self at 1. cbn [fst snd]. by rewrite L3.
Qed.

Lemma construction_repeats_witness :
  exists self w',
    __init__ ∅ (world_of env_first_run) = (Ok self, w') /\
    token_endpoint (env (world_of env_first_run)) = [Ok token_0] /\
    token_endpoint (env w') = [] /\
    __init__ ∅ w' = (Ok self, w').
Proof.
  eassert (E : __init__ ∅ (world_of env_first_run) = (Ok _, _)) by (vm_compute; reflexivity).
  eexists _, _. split; [exact E|]. split; [reflexivity|].
  split; [vm_compute; reflexivity|]. exact (construction_repeats _ _ _ _ E).
Defined.

(** X7.  [cache_expire_hours] is taken as passed when it is truthy, and it
    reaches [ExpiresAfter(hours=...)] only at the end of construction: with
    a value that is no number (the string "24", say) no session is ever
    constructed, and when credentials and token load well the failure is a
    [TypeError] raised after them, a first-time token being on disk by
    then. *)
Theorem hours_must_be_a_number kwargs w v r w' :
  kwargs !! "cache_expire_hours" = Some v ->
  truthy v = true -> as_number v = None ->
  __init__ kwargs w = (r, w') ->
  (forall self, r <> Ok self) /\
  (forall s1 s2 w2,
     _load_credentials (new_session kwargs, w) = (Ok tt, (s1, w)) ->
     _load_authorization (s1, w) = (Ok tt, (s2, w2)) ->
     r = Raise TypeError /\ w' = w2).
Proof.
  intros K T N H.
  assert (C : cache_expire_hours (new_session kwargs) = v).
  { cbn. unfold kwargs_get. by rewrite K, T. }
  split.
  - intros self ->. destruct (init_fields _ _ _ _ H) as (_ & Eh & _).
    destruct (init_wired _ _ _ _ H) as (h & (o & _ & Nh & _) & _).
    rewrite Eh, C, N in Nh. discriminate.
  - intros s1 s2 w2 L1 L2.
    destruct (load_credentials_world _ _ _ _ _ L1) as (_ & C1 & _).
    destruct (load_authorization_world _ _ _ _ _ L2) as (C2 & _).
    revert H. unfold __init__, bind at 1. rewrite L1. unfold bind at 1. rewrite L2.
    unfold bind at 1, modify_self at 1. cbn [fst snd].
    destruct (load_session_eq (set_s None s2) w2) as (o & _ & _ & _ & _ & _ & E).
    rewrite E. cbn [cache_expire_hours set_s]. rewrite C2, C1, C, N.
    by intros [= <- <-].
Qed.

Lemma hours_must_be_a_number_witness :
  exists w', __init__ kwargs_bad_hours (world_of env_first_run) = (Raise TypeError, w') /\
    fs (env w') !! ".yahoo_fantasy_auth_token.json" = Some (json_dumps token_0 1).
Proof.
  destruct (__init__ kwargs_bad_hours (world_of env_first_run)) as [r w'] eqn:H.
  assert (K : kwargs_bad_hours !! "cache_expire_hours" = Some (PyStr "24"))
    by (vm_compute; reflexivity).
  destruct (hours_must_be_a_number _ _ _ _ _ K eq_refl eq_refl H) as [_ X].
  set (st1 := snd (_load_credentials (new_session kwargs_bad_hours, world_of env_first_run))).
  assert (L1 : _load_credentials (new_session kwargs_bad_hours, world_of env_first_run)
               = (Ok tt, (fst st1, world_of env_first_run))) by (vm_compute; reflexivity).
  set (st2 := snd (_load_authorization (fst st1, world_of env_first_run))).
  assert (L2 : _load_authorization (fst st1, world_of env_first_run)
               = (Ok tt, (fst st2, snd st2))) by (vm_compute; reflexivity).
  destruct (X _ _ _ L1 L2) as [-> ->].
  exists (snd st2). split; [reflexivity|]. vm_compute. reflexivity.
Defined.

(** X8.  The token the refresh callback saves is the token the next
    session starts with: constructing over the file [_auth_file_saver]
    wrote gives [auth_token_dict], and the token of the HTTP session, equal
    to the saved token, without a question to the token endpoint. *)
Theorem saved_token_is_next_token self0 tok kwargs w self w' :
  auth_file self0 = ".yahoo_fantasy_auth_token.json" ->
  __init__ kwargs (set_env (snd (_auth_file_saver self0 tok (env w))) w) = (Ok self, w') ->
  auth_token_dict self = tok /\
  (exists o, s self = Some o /\ token o = tok) /\
  token_endpoint (env w') = token_endpoint (env w).
Proof.
  remember (set_env (snd (_auth_file_saver self0 tok (env w))) w) as W eqn:EW.
  intros A H. destruct (init_ok _ _ _ _ H) as (s1 & s2 & w2 & L1 & L2 & L3).
  destruct (load_credentials_world _ _ _ _ _ L1) as (A1 & _).
  assert (F : fs (env W) !! auth_file s1 = Some (json_dumps tok 1)).
  { rewrite A1, EW. cbn. rewrite A. apply lookup_insert_eq. }
  rewrite (load_authorization_present _ _ _ F) in L2.
  change (json_loads (json_dumps tok 1)) with (Ok tok) in L2.
  injection L2 as <- <-.
  destruct (load_session_eq (set_s None (set_auth_token_dict tok s1)) W)
    as (o & _ & To & _ & _ & _ & E).
  rewrite E in L3.
  destruct (as_number (cache_expire_hours (set_s None (set_auth_token_dict tok s1))))
    as [h|]; [|done].
  destruct (timedelta_hours_ok h); [|done].
  injection L3 as <- <-. split_and!; [done | | by rewrite EW].
  eexists. split; [reflexivity|]. cbn. by rewrite To.
Qed.

Lemma saved_token_is_next_token_witness :
  exists self w',
    __init__ ∅ (set_env (snd (_auth_file_saver (new_session ∅) token_1
                                (env (world_of env_ready))))
                  (world_of env_ready)) = (Ok self, w') /\
    auth_token_dict self = token_1.
Proof.
  eassert (E : __init__ ∅ (set_env (snd (_auth_file_saver (new_session ∅) token_1
                                            (env (world_of env_ready))))
                             (world_of env_ready)) = (Ok _, _))
    by (vm_compute; reflexivity).
  eexists _, _. split; [exact E|].
  exact (proj1 (saved_token_is_next_token (new_session ∅) token_1 ∅ (world_of env_ready)
                  _ _ eq_refl E)).
Defined.

(** ** More on get *)

Section MoreGetFacts.

Variable encode : string -> string.
Variable s_get : OAuth2Session -> string -> Q -> Env -> Res Response * OAuth2Session * Env.

Local Abbreviation request := (session_request s_get).
Local Abbreviation get_ := (get encode s_get).

(** Of the session object the request changes [s] at most. *)
Lemma request_shape url st :
  exists so, fst (snd (request url st)) = set_s so (fst st).
Proof.
  destruct st as [self w]. unfold session_request. destruct (s self) as [o|] eqn:So.
  - destruct (s_get o url (now w) (env w)) as [[res o'] e']. by eexists.
  - exists None. cbn. rewrite <- So. by destruct self.
Qed.

Lemma get_fields url return_object st res st2 :
  get_ url return_object st = (res, st2) ->
  exists l m so, fst st2 = set_urls l (set_cached_urls m (set_s so (fst st))).
Proof.
  intros G. destruct (get_shape _ _ _ _ _ _ _ G) as (l & m & E).
  destruct (request_shape url st) as [so R]. rewrite R in E. by exists l, m, so.
Qed.

(** How one call acts on [cached_urls], whatever it ends with. *)
Lemma get_cached_urls url return_object st res st2 :
  get_ url return_object st = (res, st2) ->
  cached_urls (fst st2) = cached_urls (fst st) \/
  exists r st1,
    request url st = (Ok r, st1) /\ from_cache r = false /\
    cached_urls (fst st2) = <[encode url := r_url r]> (cached_urls (fst st)) /\
    urls (fst st2) = (urls (fst st) ++ [r_url r])%list.
Proof.
  intros G.
  destruct (request url st) as [[r|ex] [self1 w1]] eqn:H;
    destruct (request_frame _ _ _ _ _ H) as (_ & U & C & _); cbn [fst snd] in *.
  - destruct (headers_get (headers r) "etag") as [v|] eqn:E.
    { rewrite (get_etag _ _ _ _ _ _ _ _ H E) in G. injection G as _ <-. by left. }
    destruct (delay_ok (request_delay (fst st)) (snd st) || from_cache r) eqn:D.
    + rewrite (get_response _ _ _ _ _ _ _ H E D) in G. injection G as _ <-.
      unfold after_get. cbn [fst]. destruct (from_cache r) eqn:FC; [by left|].
      right. exists r, (self1, w1). cbn. by rewrite C, U.
    + destruct (get_sleep_fails encode s_get _ return_object _ _ _ _ H E D) as (ex & _ & G').
      rewrite G' in G. injection G as _ <-. by left.
  - rewrite (get_transport_error _ _ _ _ _ _ _ H) in G. injection G as _ <-. by left.
Qed.

(** The sleep refused: which error, and the state it leaves. *)
Lemma get_refused_delay url return_object st r self1 w1 :
  request url st = (Ok r, (self1, w1)) ->
  headers_get (headers r) "etag" = None ->
  delay_ok (request_delay (fst st)) (snd st) || from_cache r = false ->
  get_ url return_object st =
    (Raise (match as_number (request_delay (fst st)) with
            | None => TypeError
            | Some d =>
                if in_time_range d
                then if Qle_bool 0 d then OSError else ValueError
                else OverflowError
            end),
     (self1, {| env := env w1; now := now w1;
                sleeps := (sleeps w1 ++ [request_delay (fst st)])%list;
                timer := timer w1 |})).
Proof.
  intros H E D. destruct (request_frame _ _ _ _ _ H) as (RD & _).
  rewrite <- (request_delay_ok _ _ _ _ _ H) in D.
  cbn [fst snd] in *. apply orb_false_iff in D as [D FC].
  assert (T : truthy (request_delay self1) = true).
  { destruct (truthy (request_delay self1)) eqn:T; [done|].
    by rewrite falsy_delay_ok in D. }
  unfold get, bind at 1. rewrite H. unfold bind at 1. rewrite E.
  rewrite bool_decide_eq_true_2 by done. cbn [assert_ ret].
  unfold bind at 1, get_self at 1. cbn [fst snd].
  rewrite T, FC. cbn [andb negb]. unfold bind at 1, time_sleep. cbn [fst snd].
  rewrite <- RD. unfold delay_ok in D. rewrite T in D. cbn [negb orb] in D.
  destruct (as_number (request_delay self1)) as [d|]; [|done].
  destruct (in_time_range d); [|done]. cbn [andb] in D.
  destruct (Qle_bool 0 d); [|done]. cbn [andb] in D. by rewrite D.
Qed.

(** X9.  Whatever [return_object] is, a call of [get] does the same to the
    session and the world and fails with the same error; the flag only
    selects what a successful call returns, the response object or its
    text. *)
Theorem return_object_selects_value url st :
  snd (get encode s_get url true st) = snd (get encode s_get url false st) /\
  match fst (get encode s_get url true st), fst (get encode s_get url false st) with
  | Ok (RObj r), Ok (RText t) => t = text r
  | Raise e1, Raise e2 => e1 = e2
  | _, _ => False
  end.
Proof.
  destruct (request url st) as [[r|ex] [self1 w1]] eqn:H.
  - destruct (headers_get (headers r) "etag") as [v|] eqn:E.
    { by rewrite !(get_etag _ _ _ _ _ _ _ _ H E). }
    destruct (delay_ok (request_delay (fst st)) (snd st) || from_cache r) eqn:D.
    + rewrite !(get_response _ _ _ _ _ _ _ H E D). cbn [fst snd].
      by destruct (raise_for_status r) as [[]|].
    + by rewrite !(get_refused_delay _ _ _ _ _ _ H E D).
  - by rewrite !(get_transport_error _ _ _ _ _ _ _ H).
Qed.

(** X10.  [cached_urls] is keyed by the encoding of the URL asked for and
    holds the URL the response came from.  A call changes the entry of its
    own key at most, and no entry is ever dropped.  When the response has
    no ETag and the sleep does not fail ([delay_ok], or a response from the
    cache), a fetched response makes the entry the response's URL, and a
    response from the cache leaves the mapping as it is. *)
Theorem cached_urls_keyed_by_request url return_object st res st2 :
  get_ url return_object st = (res, st2) ->
  (forall k, k <> encode url -> cached_urls (fst st2) !! k = cached_urls (fst st) !! k) /\
  (forall k, is_Some (cached_urls (fst st) !! k) -> is_Some (cached_urls (fst st2) !! k)) /\
  (forall r st1,
     request url st = (Ok r, st1) ->
     headers_get (headers r) "etag" = None ->
     delay_ok (request_delay (fst st)) (snd st) || from_cache r = true ->
     cached_urls (fst st2) =
       if from_cache r then cached_urls (fst st)
       else <[encode url := r_url r]> (cached_urls (fst st))).
Proof.
  intros G. split_and!.
  - intros k Hk.
    destruct (get_cached_urls _ _ _ _ _ G) as [-> | (r & st1 & _ & _ & -> & _)]; [done|].
    by rewrite lookup_insert_ne.
  - intros k Hk.
    destruct (get_cached_urls _ _ _ _ _ G) as [-> | (r & st1 & _ & _ & -> & _)]; [done|].
    destruct (decide (encode url = k)) as [<-|N].
    + rewrite lookup_insert_eq. by eexists.
    + by rewrite lookup_insert_ne.
  - intros r [self1 w1] H E D. destruct (request_frame _ _ _ _ _ H) as (_ & _ & C & _).
    rewrite (get_response _ _ _ _ _ _ _ H E D) in G. injection G as _ <-.
    unfold after_get. cbn [fst snd] in *. rewrite <- C. by destruct (from_cache r).
Qed.

(** X11.  Over any sequence of calls of [get], whatever each ends with, the
    request log only grows at its end, no key of [cached_urls] is lost, and
    the options, the credentials and [auth_token_dict] of the session stay
    what construction made them. *)
Theorem session_over_calls st n st' :
  calls encode s_get st n st' ->
  urls (fst st) `prefix_of` urls (fst st') /\
  (forall k, is_Some (cached_urls (fst st) !! k) -> is_Some (cached_urls (fst st') !! k)) /\
  request_delay (fst st') = request_delay (fst st) /\
  cache_expire_hours (fst st') = cache_expire_hours (fst st) /\
  web_cache_dir (fst st') = web_cache_dir (fst st) /\
  client_id (fst st') = client_id (fst st) /\
  client_secret (fst st') = client_secret (fst st) /\
  callback_url (fst st') = callback_url (fst st) /\
  auth_token_dict (fst st') = auth_token_dict (fst st) /\
  auth_file (fst st') = auth_file (fst st).
Proof.
  induction 1 as [st|st n self w d R IH _|st n st1 url ro res st2 R IH G].
  - by split_and!.
  - exact IH.
  - destruct IH as (P & K & IH).
    destruct (get_fields _ _ _ _ _ G) as (l & m & so & E).
    destruct (get_frame _ _ _ _ _ _ _ G) as (_ & (suffix & U & _) & _).
    split_and!.
    + etrans; [exact P|]. rewrite U. by apply prefix_app_r.
    + intros k Hk. apply K in Hk.
      destruct (get_cached_urls _ _ _ _ _ G) as [-> | (r & st0 & _ & _ & -> & _)]; [done|].
      destruct (decide (encode url = k)) as [<-|N].
      * rewrite lookup_insert_eq. by eexists.
      * by rewrite lookup_insert_ne.
    + rewrite E. cbn. apply IH.
    + rewrite E. cbn. apply IH.
    + rewrite E. cbn. apply IH.
    + rewrite E. cbn. apply IH.
    + rewrite E. cbn. apply IH.
    + rewrite E. cbn. apply IH.
    + rewrite E. cbn. apply IH.
    + rewrite E. cbn. apply IH.
Qed.

(** X12.  Every URL that [cached_urls] holds is in the request log: a new
    session has both empty, and no sequence of calls of [get] breaks it,
    since a call that enters a URL in [cached_urls] logs it too. *)
Theorem cached_urls_are_logged :
  (forall kwargs w self w', __init__ kwargs w = (Ok self, w') -> logged self) /\
  (forall st n st',
     logged (fst st) -> calls encode s_get st n st' -> logged (fst st')).
Proof.
  split.
  - intros kwargs w self w' H k v.
    destruct (init_fields _ _ _ _ H) as (_ & _ & _ & _ & -> & _). by rewrite lookup_empty.
  - intros st n st' L R.
    induction R as [st|st n self w d R IH _|st n st1 url ro res st2 R IH G]; try done.
    + by apply IH.
    + specialize (IH L). intros k v Hk.
      destruct (get_frame _ _ _ _ _ _ _ G) as (_ & (suffix & U & _) & _).
      destruct (get_cached_urls _ _ _ _ _ G) as [C | (r & st0 & _ & _ & C & U')].
      * rewrite C in Hk. rewrite U. apply elem_of_app. left. by apply (IH k).
      * rewrite C in Hk. rewrite U'. apply elem_of_app.
        destruct (decide (encode url = k)) as [<-|N].
        -- rewrite lookup_insert_eq in Hk. injection Hk as <-. right. by apply list_elem_of_singleton.
        -- rewrite lookup_insert_ne in Hk by done. left. by apply (IH k).
Qed.

(** X13.  A truthy [request_delay] that fails the sleep makes every call
    fail whose response was fetched and has no ETag: the request has been
    made and the sleep called by then; the error is [TypeError] for a value
    that is no number, [OverflowError] for a number out of range, on either
    side, [ValueError] for a negative number in range, and [OSError] for
    one the timer refuses; the clock has not moved, and the URL is entered
    in neither [urls] nor [cached_urls]. *)
Theorem refused_delay_fails_fetches url return_object st r self1 w1 :
  request url st = (Ok r, (self1, w1)) ->
  headers_get (headers r) "etag" = None ->
  from_cache r = false ->
  delay_ok (request_delay (fst st)) (snd st) = false ->
  get_ url return_object st =
    (Raise (match as_number (request_delay (fst st)) with
            | None => TypeError
            | Some d =>
                if in_time_range d
                then if Qle_bool 0 d then OSError else ValueError
                else OverflowError
            end),
     (self1, {| env := env w1; now := now w1;
                sleeps := (sleeps w1 ++ [request_delay (fst st)])%list;
                timer := timer w1 |})) /\
  urls self1 = urls (fst st) /\ cached_urls self1 = cached_urls (fst st).
Proof.
  intros H E FC D. destruct (request_frame _ _ _ _ _ H) as (_ & U & C & _).
  split; [|done]. apply (get_refused_delay _ _ _ r); [done | done |]. by rewrite D, FC.
Qed.

End MoreGetFacts.

(** *** The further get properties at work *)

Lemma init_ready : __init__ ∅ (world_of env_ready) = (Ok session_1, world_1).
Proof. vm_compute. reflexivity. Qed.

Lemma cached_urls_keyed_by_request_witness :
  cached_urls (fst (snd (get plain (answer_with response_200) url_nfl false
                           (session_1, world_1))))
  = <[plain url_nfl := url_nfl]> (cached_urls session_1).
Proof.
  assert (H : session_request (answer_with response_200) url_nfl (session_1, world_1)
              = (Ok response_200, (session_1, world_1))) by (vm_compute; reflexivity).
  destruct (get plain (answer_with response_200) url_nfl false (session_1, world_1))
    as [res st2] eqn:G.
  destruct (cached_urls_keyed_by_request plain _ url_nfl false _ _ _ G) as (_ & _ & A).
  apply (A _ _ H); [reflexivity | vm_compute; reflexivity].
Defined.

Lemma session_over_calls_witness :
  let st2 := snd (get plain (answer_with response_200) url_nfl true (session_1, world_1)) in
  urls session_1 `prefix_of` urls (fst st2) /\
  auth_token_dict (fst st2) = auth_token_dict session_1.
Proof.
  intros st2.
  assert (R : calls plain (answer_with response_200) (session_1, world_1)
                (0 + fetched (answer_with response_200) url_nfl (session_1, world_1)) st2).
  { eapply calls_get; [apply calls_none | apply surjective_pairing]. }
  destruct (session_over_calls plain _ _ _ _ R) as (P & _ & _ & _ & _ & _ & _ & _ & A & _).
  exact (conj P A).
Defined.

Lemma cached_urls_are_logged_witness :
  logged (fst (snd (get plain (answer_with response_200) url_nfl true (session_1, world_1)))).
Proof.
  pose proof (proj1 (cached_urls_are_logged plain (answer_with response_200))
                _ _ _ _ init_ready) as L.
  refine (proj2 (cached_urls_are_logged plain (answer_with response_200))
            (session_1, world_1) _ _ L _).
  eapply calls_get; [apply calls_none | apply surjective_pairing].
Defined.

Lemma refused_delay_fails_fetches_witness :
  (request_delay session_neg = PyInt (-1) /\
   fst (get plain (answer_with response_200) url_nfl true (session_neg, world_1))
   = Raise ValueError) /\
  (request_delay session_long = PyInt 10000000000 /\
   fst (get plain (answer_with response_200) url_nfl true (session_long, world_1))
   = Raise OverflowError).
Proof.
  split.
  - split; [vm_compute; reflexivity|].
    assert (H : session_request (answer_with response_200) url_nfl (session_neg, world_1)
                = (Ok response_200, (session_neg, world_1))) by (vm_compute; reflexivity).
    assert (D : delay_ok (request_delay (fst (session_neg, world_1)))
                  (snd (session_neg, world_1)) = false)
      by (vm_compute; reflexivity).
    destruct (refused_delay_fails_fetches plain _ url_nfl true _ _ _ _ H eq_refl eq_refl D)
      as [G _].
    rewrite G. vm_compute. reflexivity.
  - split; [vm_compute; reflexivity|].
    assert (H : session_request (answer_with response_200) url_nfl (session_long, world_1)
                = (Ok response_200, (session_long, world_1))) by (vm_compute; reflexivity).
    assert (D : delay_ok (request_delay (fst (session_long, world_1)))
                  (snd (session_long, world_1)) = false)
      by (vm_compute; reflexivity).
    destruct (refused_delay_fails_fetches plain _ url_nfl true _ _ _ _ H eq_refl eq_refl D)
      as [G _].
    rewrite G. vm_compute. reflexivity.
Defined.

(** ** The script *)

Lemma substring_length n m t :
  String.length (substring n m t) = Nat.min m (String.length t - n).
Proof.
  revert n m. induction t as [|c t IH]; intros [|n] [|m]; cbn;
    rewrite ?IH, ?Nat.sub_0_r; done.
Qed.

Lemma substring_clip n m t :
  substring n (Nat.min m (String.length t - n)) t = substring n m t.
Proof.
  revert n m. induction t as [|c t IH]; intros n m.
  - by destruct n, m.
  - destruct n as [|n]; cbn [String.length].
    + rewrite Nat.sub_0_r. destruct m as [|m]; [done|].
      rewrite <- Nat.succ_min_distr. cbn [substring]. f_equal.
      rewrite <- (IH 0%nat m). by rewrite Nat.sub_0_r.
    + rewrite Nat.sub_succ. cbn [substring]. apply IH.
Qed.

(** An occurrence lies within the text. *)
Lemma index_bound n m sub t :
  (0 < String.length sub)%nat ->
  index n sub t = Some m -> (m + String.length sub <= String.length t)%nat.
Proof.
  intros P H. apply index_correct1 in H.
  pose proof (substring_length m (String.length sub) t) as L. rewrite H in L. lia.
Qed.

(** The slice the script takes when the key starts at index [S p]. *)
Lemma slice_around_key t p :
  index 0 "game_id" t = Some (S p) ->
  str_slice t (str_find t "game_id" - 1) (str_find t "game_id" + 21) = substring p 22 t.
Proof.
  intros H. assert (B : (S p + 7 <= String.length t)%nat).
  { apply (index_bound 0 (S p) "game_id" t); [cbn; lia | done]. }
  unfold str_find, str_slice, slice_bound. rewrite H.
  rewrite !(proj2 (Z.ltb_ge _ 0)) by lia.
  rewrite (proj2 (Z.ltb_lt _ _)) by lia.
  rewrite <- (substring_clip p 22 t). f_equal; lia.
Qed.

(** The slice when the key is missing, or is where the text starts. *)
Lemma slice_without_key t :
  index 0 "game_id" t = None \/ index 0 "game_id" t = Some 0%nat ->
  (22 <= String.length t)%nat ->
  str_slice t (str_find t "game_id" - 1) (str_find t "game_id" + 21) = EmptyString.
Proof.
  intros H L. unfold str_slice. rewrite (proj2 (Z.ltb_ge _ _)); [done|].
  unfold str_find, slice_bound.
  destruct H as [-> | ->]; repeat (case Z.ltb_spec; intros); lia.
Qed.

Section MainFacts.

Variable encode : string -> string.
Variable s_get : OAuth2Session -> string -> Q -> Env -> Res Response * OAuth2Session * Env.

(** What the script prints when it gets through. *)
Lemma main_ok w out w' :
  main encode s_get w = (Ok out, w') ->
  exists sess w1 r st2,
    __init__ ∅ w = (Ok sess, w1) /\
    get encode s_get url_nfl true (sess, w1) = (Ok (RObj r), st2) /\
    w' = snd st2 /\
    out = [("response.from_cache", PyBool (from_cache r));
           ("game_id",
            PyStr (str_slice (text r) (str_find (text r) "game_id" - 1)
                     (str_find (text r) "game_id" + 21)))].
Proof.
  unfold main. destruct (__init__ ∅ w) as [[sess|e] w1] eqn:I; [|done].
  destruct (get encode s_get url_nfl true (sess, w1)) as [[[r|t]|e] [self2 w2]] eqn:G;
    try done.
  intros [= <- <-]. exists sess, w1, r, (self2, w2).
  split_and!; first [exact I | exact G | reflexivity].
Qed.

(** X14.  The script prints when the session it constructs with no
    options gets the response object for the NFL game URL, and is left in
    the world that call left.  It prints the [from_cache] of that very
    response and, with "game_id" first occurring at an index above 0 of its
    text, the 22 characters of the text that start one before that
    occurrence (fewer at the end of the text). *)
Theorem main_prints_game_id w out w' :
  main encode s_get w = (Ok out, w') ->
  exists sess w1 r st2 g,
    __init__ ∅ w = (Ok sess, w1) /\
    get encode s_get url_nfl true (sess, w1) = (Ok (RObj r), st2) /\
    w' = snd st2 /\
    out = [("response.from_cache", PyBool (from_cache r)); ("game_id", PyStr g)] /\
    forall p, index 0 "game_id" (text r) = Some (S p) ->
      g = substring p 22 (text r) /\ substring (S p) 7 (text r) = "game_id".
Proof.
  intros H. destruct (main_ok _ _ _ H) as (sess & w1 & r & st2 & I & G & -> & ->).
  eexists sess, w1, r, st2, _. split_and!; [exact I | exact G | reflexivity | reflexivity |].
  intros p F. split.
  - by apply slice_around_key.
  - by apply index_correct1 in F.
Qed.

(** X15.  The script does not check that "game_id" was found.  Once the
    session constructed with no options has got the response object [r]
    for the NFL game URL, the script raises nothing on its own: it prints
    the [from_cache] of [r] and a slice of its text, and when that text has
    22 characters or more and does not contain "game_id", or starts with
    it, the slice bounds cross and the [game_id] printed is empty. *)
Theorem main_without_game_id w sess w1 r st2 :
  __init__ ∅ w = (Ok sess, w1) ->
  get encode s_get url_nfl true (sess, w1) = (Ok (RObj r), st2) ->
  exists g,
    main encode s_get w =
      (Ok [("response.from_cache", PyBool (from_cache r)); ("game_id", PyStr g)], snd st2) /\
    (index 0 "game_id" (text r) = None \/ index 0 "game_id" (text r) = Some 0%nat ->
     (22 <= String.length (text r))%nat -> g = EmptyString).
Proof.
  intros I G. unfold main. rewrite I, G. destruct st2 as [self2 w2].
  eexists. split; [reflexivity|]. apply slice_without_key.
Qed.

End MainFacts.

Lemma main_prints_game_id_witness :
  exists w',
    main plain (cached_get plain) (world_of env_live)
    = (Ok [("response.from_cache", PyBool false);
           ("game_id", PyStr "<game_id>449</game_id>")], w').
Proof.
  eassert (E : main plain (cached_get plain) (world_of env_live) = (Ok _, _))
    by (vm_compute; reflexivity).
  destruct (main_prints_game_id plain _ _ _ _ E) as (sess & w1 & r & st2 & g & _).
  eexists. exact E.
Defined.

Lemma main_without_game_id_witness :
  exists w',
    main plain (answer_with response_other) (world_of env_ready)
    = (Ok [("response.from_cache", PyBool false); ("game_id", PyStr EmptyString)], w').
Proof.
  set (st2 := snd (get plain (answer_with response_other) url_nfl true (session_1, world_1))).
  assert (G : get plain (answer_with response_other) url_nfl true (session_1, world_1)
              = (Ok (RObj response_other), st2)) by (vm_compute; reflexivity).
  destruct (main_without_game_id plain _ _ _ _ _ _ init_ready G) as (g & M & E).
  assert (Eg : g = EmptyString) by (apply E; [left; reflexivity | cbn; lia]).
  subst g. eexists. exact M.
Defined.
